(** * fabfile.py: batch management of git checkouts

    A shallow embedding of the repository-discovery and
    state-reconciliation code of [fabfile.py] (the git part of the
    fabfile: [_get_git_repo_paths], [_fetch_repo], [_pull_repo],
    [_check_is_repo_up_to_date], [_run_action_for_each_repo], [_try_run]
    and the tasks that call them), followed by the properties the
    specification states about it.

    The program talks to three collaborators: the operating system
    ([os.walk], [os.path]), GitPython ([Repo] and what hangs off it) and
    the terminal ([print], [termcolor.colored]).  Their behaviour is
    written out in the first part; the functions of the fabfile come
    next, in the order and under the names of the source. *)

From Stdlib Require Import String Ascii List Bool Arith Lia.
From Stdlib Require Import DecimalString.
Import ListNotations.
Open Scope string_scope.

(** ** Python values *)

Module Py.

(** The exception classes that can reach [_try_run].  [KeyboardInterrupt]
    and [SystemExit] derive from [BaseException] only. *)
Inductive exn_class : Type :=
| ValueError
| TypeError
| AttributeError
| GitCommandError
| InvalidGitRepositoryError
| RuntimeError
| KeyboardInterrupt
| SystemExit.

(** An exception object: its class, [str(error)] and what
    [traceback.format_exc()] prints for it. *)
Record exn : Type := mk_exn {
  exn_cls : exn_class;
  exn_str : string;
  exn_traceback : string
}.

(** [isinstance(error, Exception)], the test of [except Exception]. *)
Definition is_Exception (e : exn) : bool :=
  match exn_cls e with
  | KeyboardInterrupt | SystemExit => false
  | _ => true
  end.

Inductive result (A : Type) : Type :=
| Ok (a : A)
| Raise (e : exn).
Arguments Ok {A} a.
Arguments Raise {A} e.

(** [s.startswith(p)] *)
Definition startswith (s p : string) : bool := String.prefix p s.

(** [sub in s] on strings *)
Fixpoint contains (s sub : string) : bool :=
  String.prefix sub s ||
  match s with
  | EmptyString => false
  | String _ rest => contains rest sub
  end.

Fixpoint ends_with_sep (s : string) : bool :=
  match s with
  | EmptyString => false
  | String c EmptyString => Ascii.eqb c "/"
  | String _ rest => ends_with_sep rest
  end.

(** [os.path.join(a, b)] of posixpath. *)
Definition path_join (a b : string) : string :=
  if startswith b "/" then b
  else if (a =? EmptyString) || ends_with_sep a then a ++ b
  else a ++ "/" ++ b.

(** The line feed and the double quote of Python string literals. *)
Definition LF : string := String (ascii_of_nat 10) EmptyString.
Definition dq : string := String (ascii_of_nat 34) EmptyString.

(** [str(n)] for a non-negative int. *)
Definition str_of_nat (n : nat) : string :=
  NilEmpty.string_of_uint (Nat.to_uint n).

(** Truth value of an optional string argument ([None] and [''] are
    falsy). *)
Definition truthy (x : option string) : option string :=
  match x with
  | Some s => if s =? EmptyString then None else Some s
  | None => None
  end.

End Py.
Import Py.

(** ** The collaborators *)

(** *** The file system, as the discovery code reads it *)

Record FileSystem : Type := {
  (** [next(os.walk(p))[1]]: the names of the immediate subdirectories of
      the directory [p] (the tasks pass [os.getcwd()]) *)
  walk_dirnames : string -> list string;
  (** [os.path.isdir] *)
  isdir : string -> bool
}.

(** *** GitPython *)

(** [repo.head]: detached, or on a branch. *)
Inductive Head : Type :=
| Detached
| OnBranch (name : string).

(** What git holds at one path. *)
Record RepoState : Type := {
  (** [Repo(path)] succeeds *)
  is_repo : bool;
  head : Head;
  (** [str(ref)] for each [ref] of [repo.references]: ["master"],
      ["origin/master"], ["v1.0"], ... *)
  references : list string;
  (** the names of [repo.remotes] *)
  remotes : list string;
  (** [repo.is_dirty(untracked_files=True)] *)
  dirty : bool;
  (** the output of [git status -sb] *)
  status_sb : string;
  (** [git rev-list rev]: the commits of a range, or the failure of the
      command *)
  rev_list : string -> result (list string)
}.

(** The [Repo] object: a handle on the repository at [working_dir].
    Every query reads the state of that path anew. *)
Record Repo : Type := { working_dir : string }.

(** [Remote] objects; the class defines neither [__bool__] nor [__len__],
    so every instance is truthy. *)
Record Remote : Type := { remote_name_of : string }.
Definition remote_truthy (_ : Remote) : bool := true.

Definition World : Type := string -> RepoState.

Definition update (w : World) (p : string) (s : RepoState) : World :=
  fun q => if q =? p then s else w q.

(** The calls the fabfile makes into GitPython. *)
Inductive GitCall : Type :=
| OpenRepo                            (* Repo(path) *)
| HeadIsDetached                      (* repo.head.is_detached *)
| ActiveBranch                        (* repo.active_branch *)
| GetRemote                           (* repo.remote() *)
| GetRemotes                          (* repo.remotes *)
| GetReferences                       (* repo.references *)
| IsDirty                             (* repo.is_dirty(untracked_files=True) *)
| StatusSb                            (* repo.git.status('-sb') *)
| IterCommits (rev : string)          (* repo.iter_commits(rev) *)
| GitFetch (remote branch : string)   (* repo.git.fetch(remote, branch) *)
| GitPull                             (* repo.git.pull() *)
| RemoteUpdate.                       (* remote.update() *)

(** What a run does that can be seen from outside, in order. *)
Inductive Event : Type :=
| Call (path : string) (c : GitCall)
| Out (text : string).

(** What stays fixed during a run. *)
Record Env : Type := {
  (** the module constant [DEBUG_MODE] ([False] in the source) *)
  DEBUG_MODE : bool;
  (** [os.getcwd()] *)
  getcwd : string;
  (** [os.path.relpath] *)
  relpath : string -> string;
  (** [termcolor.colored(text, color, attrs=...)] *)
  colored : string -> string -> list string -> string;
  (** the git binary: output and new state, or [GitCommandError] *)
  run_fetch : RepoState -> string -> string -> result (string * RepoState);
  run_pull : RepoState -> result (string * RepoState);
  run_remote_update : RepoState -> result RepoState
}.

(** ** The monad of the embedding: world state, event trace, exceptions *)

Definition M (A : Type) : Type := World -> result A * World * list Event.

Definition ret {A} (a : A) : M A := fun w => (Ok a, w, []).

Definition bind {A B} (m : M A) (k : A -> M B) : M B :=
  fun w =>
    match m w with
    | (Ok a, w1, t1) =>
        match k a w1 with
        | (r, w2, t2) => (r, w2, (t1 ++ t2)%list)
        end
    | (Raise e, w1, t1) => (Raise e, w1, t1)
    end.

Definition raise {A} (e : exn) : M A := fun w => (Raise e, w, []).

Declare Scope py_scope.
Delimit Scope py_scope with py.
Notation "x <- m ;; k" := (bind m (fun x => k))
  (at level 100, m at next level, right associativity) : py_scope.
Notation "m ;; k" := (bind m (fun _ => k))
  (at level 100, right associativity) : py_scope.
Open Scope py_scope.

Definition value {A} (o : result A * World * list Event) : result A := fst (fst o).
Definition world_after {A} (o : result A * World * list Event) : World := snd (fst o).
Definition trace {A} (o : result A * World * list Event) : list Event := snd o.

(** The printed lines of a trace, and the git calls of a trace. *)
Fixpoint printed (t : list Event) : list string :=
  match t with
  | [] => []
  | Out s :: rest => s :: printed rest
  | Call _ _ :: rest => printed rest
  end.

Fixpoint calls (t : list Event) : list (string * GitCall) :=
  match t with
  | [] => []
  | Call p c :: rest => (p, c) :: calls rest
  | Out _ :: rest => calls rest
  end.

(** [print(text)] *)
Definition print (text : string) : M unit := fun w => (Ok tt, w, [Out text]).

(** A read-only call on the repository behind [repo]. *)
Definition query {A} (repo : Repo) (c : GitCall) (f : RepoState -> result A) : M A :=
  fun w => (f (w (working_dir repo)), w, [Call (working_dir repo) c]).

(** A call that may change the repository behind [repo]. *)
Definition command {A} (repo : Repo) (c : GitCall)
    (f : RepoState -> result (A * RepoState)) : M A :=
  fun w =>
    match f (w (working_dir repo)) with
    | Ok (a, s) => (Ok a, update w (working_dir repo) s, [Call (working_dir repo) c])
    | Raise e => (Raise e, w, [Call (working_dir repo) c])
    end.

Module Git.

(** [Repo(path)] for a directory [path] that exists, given absolute
    and normalised, as the tasks build their paths from [os.getcwd()]
    and the names of a listing: it raises [InvalidGitRepositoryError],
    with that path, where the directory holds no repository.  A [World]
    holds directories that exist; of a path that does not exist, for
    which GitPython raises [NoSuchPathError], it says nothing. *)
Definition open (path : string) : M Repo :=
  query {| working_dir := path |} OpenRepo
    (fun s => if is_repo s then Ok {| working_dir := path |}
              else Raise (mk_exn InvalidGitRepositoryError path EmptyString)).

Definition head_is_detached (repo : Repo) : M bool :=
  query repo HeadIsDetached
    (fun s => Ok match head s with Detached => true | OnBranch _ => false end).

(** [repo.active_branch]: raises [TypeError] on a detached HEAD; the
    value is the branch, used through [str()] or [.name]. *)
Definition active_branch (repo : Repo) : M string :=
  query repo ActiveBranch
    (fun s => match head s with
              | OnBranch b => Ok b
              | Detached =>
                  Raise (mk_exn TypeError
                           "HEAD is a detached symbolic reference" EmptyString)
              end).

(** [repo.remote()].  The method is [Repo.remote(self, name='origin')],
    documented as "return: Remote with the specified name; raise
    ValueError: if no remote with such a name exists": called without
    argument it looks for the remote named origin, whatever else is
    configured. *)
Definition remote (repo : Repo) : M Remote :=
  query repo GetRemote
    (fun s => if existsb (String.eqb "origin") (remotes s)
              then Ok {| remote_name_of := "origin" |}
              else Raise (mk_exn ValueError
                            "Remote named 'origin' didn't exist" EmptyString)).

Definition get_remotes (repo : Repo) : M (list string) :=
  query repo GetRemotes (fun s => Ok (remotes s)).

Definition get_references (repo : Repo) : M (list string) :=
  query repo GetReferences (fun s => Ok (references s)).

Definition is_dirty (repo : Repo) : M bool :=
  query repo IsDirty (fun s => Ok (dirty s)).

Definition status (repo : Repo) : M string :=
  query repo StatusSb (fun s => Ok (status_sb s)).

(** [repo.iter_commits(rev)] starts [git rev-list] and hands back a
    generator; a failure of the command is raised when the generator is
    consumed. *)
Definition iter_commits (repo : Repo) (rev : string)
  : M (result (list string)) :=
  query repo (IterCommits rev) (fun s => Ok (rev_list s rev)).

(** [sum(1 for c in commits)] *)
Definition count (commits : result (list string)) : M nat :=
  match commits with
  | Ok l => ret (List.length l)
  | Raise e => raise e
  end.

Definition fetch (env : Env) (repo : Repo) (remote branch : string) : M string :=
  command repo (GitFetch remote branch) (fun s => run_fetch env s remote branch).

Definition pull (env : Env) (repo : Repo) : M string :=
  command repo GitPull (run_pull env).

(** [repo.remotes.origin]: the attribute lookup on the list of remotes
    finds the remote named origin, and raises [AttributeError] when there
    is none. *)
Definition remotes_origin (repo : Repo) : M Remote :=
  query repo GetRemotes
    (fun s => if existsb (String.eqb "origin") (remotes s)
              then Ok {| remote_name_of := "origin" |}
              else Raise (mk_exn AttributeError
                            "'IterableList' object has no attribute 'origin'"
                            EmptyString)).

(** [remote.update()], that is [git remote update]. *)
Definition remote_update (env : Env) (repo : Repo) (_ : Remote) : M unit :=
  command repo RemoteUpdate
    (fun s => match run_remote_update env s with
              | Ok s' => Ok (tt, s')
              | Raise e => Raise e
              end).

End Git.

(** ** fabfile.py *)

Module Fabfile.

(** Expected 'remote' name that is used in GIT operations *)
Definition DEFAULT_GIT_REMOTE_NAME : string := "origin".

Section WithEnv.

Variable env : Env.
Variable fs : FileSystem.

(** *** Other functions (printing) *)

Definition _print_info (print_str : string) : M unit :=
  print ("[" ++ colored env "info" "green" [] ++ "] " ++ print_str).

Definition _print_warn (print_str : string) : M unit :=
  print ("[" ++ colored env "warn" "yellow" [] ++ "] " ++ print_str).

Definition _print_error (print_str : string) : M unit :=
  print ("[" ++ colored env "error" "red" [] ++ "] " ++ print_str).

Definition _as_bolded_white_str (str_value : string) : string :=
  colored env str_value "white" ["bold"].

(** [try: func() except Exception as error: ...] *)
Definition _try_run (func : M unit) : M unit :=
  fun w =>
    match func w with
    | (Raise error, w1, t1) =>
        if is_Exception error then
          match (_print_error ("Message: " ++ exn_str error) ;;
                 if DEBUG_MODE env
                 then _print_error (exn_traceback error)
                 else ret tt) w1 with
          | (r, w2, t2) => (r, w2, (t1 ++ t2)%list)
          end
        else (Raise error, w1, t1)
    | done => done
    end.

(** *** Git repository related functions *)

Definition _is_repo_head_detached (repo : Repo) : M bool :=
  Git.head_is_detached repo.

Definition _get_remote_name (repo : Repo) : M string :=
  remote <- Git.remote repo ;;
  ret (if remote_truthy remote then remote_name_of remote
       else DEFAULT_GIT_REMOTE_NAME).

Definition _get_git_repo_identifier_str (repo_dir : string) : string :=
  _as_bolded_white_str (relpath env repo_dir).

Definition _get_git_repo_str (repo_dir : string) (repo : Repo) : M string :=
  let repo_identifier := _get_git_repo_identifier_str repo_dir in
  is_dirty <- Git.is_dirty repo ;;
  let dirty_state :=
    if is_dirty then "(" ++ colored env "DIRTY" "red" [] ++ ")" else EmptyString in
  detached <- _is_repo_head_detached repo ;;
  branch_text <- (if detached then ret "(detached HEAD)"
                  else Git.active_branch repo) ;;
  let branch := colored env branch_text "green" [] in
  ret ("[" ++ branch ++ "] " ++ dq ++ repo_identifier ++ dq ++ " " ++ dirty_state).

(** [for ref in repo.references: if str(ref) == str(branch): return True] *)
Fixpoint any_ref_is (refs : list string) (name : string) : bool :=
  match refs with
  | [] => false
  | ref :: rest => if ref =? name then true else any_ref_is rest name
  end.

Definition _has_branch (repo : Repo) (branch : string) : M bool :=
  refs <- Git.get_references repo ;;
  ret (any_ref_is refs branch).

Definition _has_remote_branch (remote_name : string) (repo : Repo) : M bool :=
  detached <- _is_repo_head_detached repo ;;
  if detached then
    (* Do not consider detached heads as branches -> False *)
    ret false
  else
    active_branch <- Git.active_branch repo ;;
    let remote_branch_name := remote_name ++ "/" ++ active_branch in
    refs <- Git.get_references repo ;;
    ret (any_ref_is refs remote_branch_name).

Definition _is_tracking_remote_branch (repo : Repo) : M bool :=
  detached <- _is_repo_head_detached repo ;;
  if detached then ret false
  else
    remotes <- Git.get_remotes repo ;;
    match remotes with
    | [] =>
        (* No remotes configures *)
        ret false
    | _ :: _ =>
        remote <- Git.remote repo ;;
        if negb (remote_truthy remote) then ret false
        else
          branch_name <- Git.active_branch repo ;;
          let remote_branch_name :=
            remote_name_of remote ++ "/" ++ branch_name in
          status <- Git.status repo ;;
          let is_tracking_remote :=
            contains status (branch_name ++ "..." ++ remote_branch_name) in
          ret is_tracking_remote
    end.

(** [branch or repo.active_branch] *)
Definition branch_or_active (branch : option string) (repo : Repo) : M string :=
  match truthy branch with
  | Some b => ret b
  | None => Git.active_branch repo
  end.

Definition _fetch_repo (repo_dir : string) (repo : Repo)
    (branch : option string) : M unit :=
  detached <- _is_repo_head_detached repo ;;
  if detached then
    _print_warn ("-- skipping repo: "
                 ++ _get_git_repo_identifier_str repo_dir
                 ++ " (HEAD is currently detached)" ++ LF)
  else
    remote_name <- _get_remote_name repo ;;
    has_remote_branch <- _has_remote_branch remote_name repo ;;
    if negb has_remote_branch then
      active_branch <- Git.active_branch repo ;;
      let remote_repo_identifier := _as_bolded_white_str active_branch in
      _print_warn ("-- skipping repo: "
                   ++ _get_git_repo_identifier_str repo_dir
                   ++ " (no matching remote repository "
                   ++ dq ++ remote_repo_identifier ++ dq ++ ")" ++ LF)
    else
      target_branch <- branch_or_active branch repo ;;
      repo_str <- _get_git_repo_str repo_dir repo ;;
      _print_info ("Fetching branch " ++ dq ++ target_branch
                   ++ dq ++ " (from " ++ remote_name ++ ") in repo: "
                   ++ repo_str) ;;
      output <- Git.fetch env repo "origin" target_branch ;;
      (if output =? EmptyString then ret tt else print ("--> " ++ output)) ;;
      (* print empty line after the operation *)
      print EmptyString.

Definition _pull_repo (repo_dir : string) (repo : Repo) : M unit :=
  is_dirty <- Git.is_dirty repo ;;
  if is_dirty then
    _print_warn ("-- skipping repo: "
                 ++ _get_git_repo_identifier_str repo_dir ++ " "
                 ++ "(repo state is DIRTY)" ++ LF)
  else
    detached <- _is_repo_head_detached repo ;;
    if detached then
      _print_warn ("-- skipping repo: "
                   ++ _get_git_repo_identifier_str repo_dir ++ " "
                   ++ "(HEAD is currently detached)" ++ LF)
    else
      is_tracking <- _is_tracking_remote_branch repo ;;
      if negb is_tracking then
        _print_warn ("-- skipping repo: "
                     ++ _get_git_repo_identifier_str repo_dir ++ " "
                     ++ "(no upstream branch is set)" ++ LF)
      else
        remote_name <- _get_remote_name repo ;;
        has_remote_branch <- _has_remote_branch remote_name repo ;;
        if negb has_remote_branch then
          _print_warn ("-- skipping repo: "
                       ++ _get_git_repo_identifier_str repo_dir ++ " "
                       ++ "(matching remote branch do not exist in the "
                       ++ "references)" ++ LF)
        else
          repo_str <- _get_git_repo_str repo_dir repo ;;
          _print_info ("Pulling repo: " ++ repo_str) ;;
          output <- Git.pull env repo ;;
          (if output =? EmptyString then ret tt else print ("--> " ++ output)) ;;
          (* print empty line after the operation *)
          print EmptyString.

Definition _update_remotes_in_repo (repo_dir : string) (repo : Repo) : M unit :=
  repo_str <- _get_git_repo_str repo_dir repo ;;
  _print_info ("Updating remotes in repo: " ++ repo_str ++ LF) ;;
  origin <- Git.remotes_origin repo ;;
  Git.remote_update env repo origin.

(** The two revision ranges of [_check_is_repo_up_to_date]:
    [commits_ahead = repo.iter_commits(f'{remote_branch}..{target_branch}')]
    and
    [commits_behind = repo.iter_commits(f'{target_branch}..{remote_branch}')]. *)
Definition commits_ahead (repo : Repo) (target_branch remote_branch : string)
  : M (result (list string)) :=
  Git.iter_commits repo (remote_branch ++ ".." ++ target_branch).

Definition commits_behind (repo : Repo) (target_branch remote_branch : string)
  : M (result (list string)) :=
  Git.iter_commits repo (target_branch ++ ".." ++ remote_branch).

(** The counts taken from them, [sum(1 for c in ...)]. *)
Definition forward_commit_count (repo : Repo)
    (target_branch remote_branch : string) : M nat :=
  commits <- commits_ahead repo target_branch remote_branch ;;
  Git.count commits.

Definition behind_commit_count (repo : Repo)
    (target_branch remote_branch : string) : M nat :=
  commits <- commits_behind repo target_branch remote_branch ;;
  Git.count commits.

(** The lines the check prints. *)
Definition up_to_date_line (remote_branch : string) : string :=
  let remote_branch_str := colored env remote_branch "blue" [] in
  let up_to_date_str := colored env "up-to-date" "green" [] in
  "--> Origin (" ++ remote_branch_str ++ ") is " ++ up_to_date_str
  ++ " with local branch".

Definition origin_ahead_line (remote_branch : string) (behind_commit_count : nat)
  : string :=
  let remote_branch_str := colored env remote_branch "blue" [] in
  let behind_str :=
    colored env ("ahead by " ++ str_of_nat behind_commit_count ++ " commit(s)")
      "green" [] in
  "--> Origin (" ++ remote_branch_str ++ ") is " ++ behind_str.

Definition local_ahead_line (target_branch : string) (forward_commit_count : nat)
  : string :=
  let branch_str := colored env target_branch "blue" [] in
  let ahead_str :=
    colored env ("ahead by " ++ str_of_nat forward_commit_count ++ " commit(s)")
      "green" [] in
  "--> Local branch (" ++ branch_str ++ ") is " ++ ahead_str.

(** The end of [_check_is_repo_up_to_date], from the two counts on. *)
Definition report_counts (target_branch remote_branch : string)
    (behind_commit_count forward_commit_count : nat) : M unit :=
  if (behind_commit_count =? 0)%nat && (forward_commit_count =? 0)%nat then
    print (up_to_date_line remote_branch)
  else
    (if (0 <? behind_commit_count)%nat
     then print (origin_ahead_line remote_branch behind_commit_count)
     else ret tt) ;;
    (if (0 <? forward_commit_count)%nat
     then print (local_ahead_line target_branch forward_commit_count)
     else ret tt).

Definition _check_is_repo_up_to_date (repo_dir : string) (repo : Repo)
    (branch : option string) : M unit :=
  detached <- _is_repo_head_detached repo ;;
  if detached then
    _print_warn ("-- Skipping repo " ++ _get_git_repo_identifier_str repo_dir
                 ++ " (currently HEAD is detached from any branches) ")
  else
    remote_name <- _get_remote_name repo ;;
    target_branch <- branch_or_active branch repo ;;
    has_branch <- _has_branch repo target_branch ;;
    if negb has_branch then
      _print_warn ("-- Skipping repo " ++ _get_git_repo_identifier_str repo_dir
                   ++ "(no matching branch " ++ dq ++ target_branch ++ dq ++ ")")
    else
      let remote_branch := remote_name ++ "/" ++ target_branch in
      has_remote_branch <- _has_remote_branch remote_name repo ;;
      if negb has_remote_branch then
        let remote_branch_name := colored env remote_branch "blue" [] in
        _print_warn ("-- Skipping repo " ++ _get_git_repo_identifier_str repo_dir
                     ++ "(no matching remote branch " ++ dq
                     ++ remote_branch_name ++ dq ++ ")")
      else
        _update_remotes_in_repo repo_dir repo ;;
        repo_str <- _get_git_repo_str repo_dir repo ;;
        print ("Checking repository state " ++ repo_str) ;;
        commits_ahead <- commits_ahead repo target_branch remote_branch ;;
        commits_behind <- commits_behind repo target_branch remote_branch ;;
        behind_commit_count <- Git.count commits_behind ;;
        forward_commit_count <- Git.count commits_ahead ;;
        report_counts target_branch remote_branch
          behind_commit_count forward_commit_count.

(** *** Discovery *)

Definition _has_git_repo (path : string) : bool :=
  let git_db_dir := path_join path ".git" in
  isdir fs git_db_dir.

(** The loop of [_get_git_repo_paths] over [sub_directories], with
    [repo_paths] as it stands so far. *)
Fixpoint collect_repo_paths (dir_path : string) (sub_directories : list string)
    (repo_paths : list string) : list string :=
  match sub_directories with
  | [] => repo_paths
  | sub_dir :: rest =>
      if startswith sub_dir "." then
        (* skip hidden directories *)
        collect_repo_paths dir_path rest repo_paths
      else
        let repo_path := path_join dir_path sub_dir in
        if _has_git_repo repo_path
        then collect_repo_paths dir_path rest (repo_paths ++ [repo_path])%list
        else collect_repo_paths dir_path rest repo_paths
  end.

Definition _get_git_repo_paths (dir_path : string) : list string :=
  let repo_paths := [] in
  let sub_directories := walk_dirnames fs dir_path in
  collect_repo_paths dir_path sub_directories repo_paths.

(** *** Running an action on repositories *)

Fixpoint _run_action_for_each_repo (git_repo_dirs : list string)
    (func : string -> Repo -> M unit) : M unit :=
  match git_repo_dirs with
  | [] => ret tt
  | repo_dir :: rest =>
      repo <- Git.open repo_dir ;;
      _try_run (func repo_dir repo) ;;
      _run_action_for_each_repo rest func
  end.

Definition _run_action_if_is_repo (dir_path : string)
    (action_func : string -> Repo -> M unit) : M unit :=
  if _has_git_repo dir_path then
    repo <- Git.open dir_path ;;
    _try_run (action_func dir_path repo)
  else
    _print_error ("No GIT repos found from " ++ dq ++ dir_path ++ dq).

(** *** Tasks *)

Definition is_empty {A} (l : list A) : bool :=
  match l with [] => true | _ :: _ => false end.

Definition fetch_all (branch : option string) : M unit :=
  let current_directory := getcwd env in
  let git_repo_dirs := _get_git_repo_paths current_directory in
  if is_empty git_repo_dirs then
    _run_action_if_is_repo current_directory
      (fun repo_dir repo => _fetch_repo repo_dir repo branch)
  else
    _run_action_for_each_repo git_repo_dirs
      (fun repo_dir repo => _fetch_repo repo_dir repo branch).

Definition pull_all : M unit :=
  let current_directory := getcwd env in
  let git_repo_dirs := _get_git_repo_paths current_directory in
  if is_empty git_repo_dirs then
    _run_action_if_is_repo current_directory
      (fun repo_dir repo => _pull_repo repo_dir repo)
  else
    _run_action_for_each_repo git_repo_dirs
      (fun repo_dir repo => _pull_repo repo_dir repo).

Definition check_repo_states (branch : option string) : M unit :=
  let current_directory := getcwd env in
  let git_repo_dirs := _get_git_repo_paths current_directory in
  if is_empty git_repo_dirs then
    _run_action_if_is_repo current_directory
      (fun repo_dir repo => _check_is_repo_up_to_date repo_dir repo branch)
  else
    _run_action_for_each_repo git_repo_dirs
      (fun repo_dir repo => _check_is_repo_up_to_date repo_dir repo branch).

Definition list_repos : M unit :=
  let current_directory := getcwd env in
  let git_repo_dirs := _get_git_repo_paths current_directory in
  if is_empty git_repo_dirs then
    if _has_git_repo current_directory then
      repo <- Git.open current_directory ;;
      repo_str <- _get_git_repo_str current_directory repo ;;
      print repo_str ;;
      _print_info "(repo is in current directory)"
    else
      _print_info ("No GIT repos found from " ++ dq ++ current_directory ++ dq)
  else
    _run_action_for_each_repo git_repo_dirs
      (fun repo_dir repo =>
         repo_str <- _get_git_repo_str repo_dir repo ;; print repo_str).

End WithEnv.

End Fabfile.

(** ** Reading runs: the vocabulary of the properties *)

Module Observations.

Import Fabfile.

Definition Outcome (A : Type) : Type := (result A * World * list Event)%type.

(** *** Skip reasons *)

(** The reasons for which an operation leaves a repository alone. *)
Inductive SkipReason : Type :=
| NONE
| DIRTY
| DETACHED_HEAD
| NOT_TRACKING
| NO_REMOTE_BRANCH
| NO_MATCHING_BRANCH.

(** What [_pull_repo] says for each of its reasons. *)
Definition pull_reason_text (reason : SkipReason) : string :=
  match reason with
  | DIRTY => "(repo state is DIRTY)"
  | DETACHED_HEAD => "(HEAD is currently detached)"
  | NOT_TRACKING => "(no upstream branch is set)"
  | NO_REMOTE_BRANCH =>
      "(matching remote branch do not exist in the references)"
  | NONE | NO_MATCHING_BRANCH => EmptyString
  end.

(** The warning line of [_pull_repo] for a reason. *)
Definition pull_skip_line (env : Env) (repo_dir : string) (reason : SkipReason)
  : string :=
  "[" ++ colored env "warn" "yellow" [] ++ "] "
  ++ "-- skipping repo: " ++ _get_git_repo_identifier_str env repo_dir ++ " "
  ++ pull_reason_text reason ++ LF.

(** A run of [_pull_repo] that skipped for [reason]: it returned, its one
    printed line is the warning of that reason, and [git pull] was not
    called. *)
Definition pull_skipped (env : Env) (repo_dir : string) (reason : SkipReason)
    (o : Outcome unit) : Prop :=
  value o = Ok tt /\
  printed (trace o) = [pull_skip_line env repo_dir reason] /\
  forall p, ~ In (p, GitPull) (calls (trace o)).

(** *** Order of the refresh and of the reads of the references *)

(** Somewhere in [t] the references are read after a refresh.  A run in
    which the refresh came before the remote-branch test, which reads
    [repo.references], has such a trace. *)
Definition references_read_after_refresh (t : list Event) : Prop :=
  exists pre mid post p q,
    t = (pre ++ Call p RemoteUpdate :: mid ++ Call q GetReferences :: post)%list.

Definition is_references_read (e : Event) : bool :=
  match e with Call _ GetReferences => true | _ => false end.

Definition is_refresh (e : Event) : bool :=
  match e with Call _ RemoteUpdate => true | _ => false end.

(** The same, decided. *)
Fixpoint reads_after_refresh (t : list Event) : bool :=
  match t with
  | [] => false
  | e :: rest =>
      (is_refresh e && existsb is_references_read rest)
      || reads_after_refresh rest
  end.

(** *** Remote name, in the words of the specification *)

(** The resolved remote name as the specification words it: the single
    configured remote if exactly one exists, otherwise the fixed default
    name. *)
Definition spec_remote_name (configured : list string) : string :=
  match configured with
  | [single] => single
  | _ => DEFAULT_GIT_REMOTE_NAME
  end.

(** *** Discovery *)

(** A subdirectory name that [_get_git_repo_paths] keeps: not hidden, and
    with a [.git] directory inside. *)
Definition qualifies (fs : FileSystem) (dir_path sub_dir : string) : bool :=
  negb (startswith sub_dir ".")
  && isdir fs (path_join (path_join dir_path sub_dir) ".git").

(** The two-level policy of a task: the qualifying subdirectories if
    there are any, else the working directory itself if it is a
    repository, else the report that there is none. *)
Definition falls_back_to_root (env : Env) (fs : FileSystem) (task : M unit)
    (action : string -> Repo -> M unit) : Prop :=
  let root := getcwd env in
  let found := filter (qualifies fs root) (walk_dirnames fs root) in
  (found <> [] ->
     task = _run_action_for_each_repo env (map (path_join root) found) action) /\
  (found = [] -> _has_git_repo fs root = true ->
     task = (repo <- Git.open root ;; _try_run env (action root repo))) /\
  (found = [] -> _has_git_repo fs root = false ->
     task = _print_error env ("No GIT repos found from " ++ dq ++ root ++ dq)).

(** *** Failures in a batch *)

(** What [_try_run] logs for the result of an action. *)
Definition error_lines (env : Env) (r : result unit) : list Event :=
  match r with
  | Ok _ => []
  | Raise error =>
      Out ("[" ++ colored env "error" "red" [] ++ "] "
           ++ "Message: " ++ exn_str error)
      :: (if DEBUG_MODE env
          then [Out ("[" ++ colored env "error" "red" [] ++ "] "
                     ++ exn_traceback error)]
          else [])
  end.

(** A batch in which no failure stops the loop: every directory is
    opened and acted on in turn, in the world the one before left. *)
Fixpoint isolated_run (env : Env) (dirs : list string)
    (func : string -> Repo -> M unit) (w : World) : World * list Event :=
  match dirs with
  | [] => (w, [])
  | repo_dir :: rest =>
      let o := func repo_dir {| working_dir := repo_dir |} w in
      let (w', t) := isolated_run env rest func (world_after o) in
      (w', (Call repo_dir OpenRepo :: trace o
            ++ error_lines env (value o) ++ t)%list)
  end.

(** Every directory of [dirs] holds a repository in [w]. *)
Definition all_open (dirs : list string) (w : World) : Prop :=
  forall d, In d dirs -> is_repo (w d) = true.

(** A logged line names a repository when the path of the repository, as
    given or relative to the working directory, occurs in it. *)
Definition names_repository (env : Env) (line repo_dir : string) : bool :=
  contains line repo_dir || contains line (relpath env repo_dir).

End Observations.

(** ** Concrete collaborators, to run the functions on *)

Module Samples.

(** [termcolor.colored] of termcolor 1.1.0 with colours enabled. *)
Definition ESC : string := String (ascii_of_nat 27) EmptyString.

Definition code_of (name : string) : string :=
  if name =? "red" then "31"
  else if name =? "green" then "32"
  else if name =? "yellow" then "33"
  else if name =? "blue" then "34"
  else if name =? "white" then "37"
  else if name =? "bold" then "1"
  else "0".

Definition termcolor (text color : string) (attrs : list string) : string :=
  fold_left (fun t attr => ESC ++ "[" ++ code_of attr ++ "m" ++ t) attrs
    (ESC ++ "[" ++ code_of color ++ "m" ++ text)
  ++ ESC ++ "[0m".

(** Paths relative to the working directory [/work]. *)
Definition rel_to_work (p : string) : string :=
  if String.prefix "/work/" p
  then String.substring 6 (String.length p - 6) p
  else p.

(** A remote that has one more reference to hand out,
    [origin/master]; fetching and pulling succeed and change nothing. *)
Definition refresh (s : RepoState) : result RepoState :=
  Ok {| is_repo := is_repo s; head := head s;
        references := (references s ++ ["origin/master"])%list;
        remotes := remotes s; dirty := dirty s;
        status_sb := status_sb s; rev_list := rev_list s |}.

(** [git rev-list] from a table of known ranges; any other revision is
    a bad one. *)
Fixpoint lookup_range (table : list (string * list string)) (rev : string)
  : result (list string) :=
  match table with
  | [] => Raise (mk_exn GitCommandError ("bad revision '" ++ rev ++ "'") EmptyString)
  | (r, commits) :: rest => if r =? rev then Ok commits else lookup_range rest rev
  end.

Definition env0 : Env :=
  {| DEBUG_MODE := false;
     getcwd := "/work";
     relpath := rel_to_work;
     colored := termcolor;
     run_fetch := fun s _ _ => Ok (EmptyString, s);
     run_pull := fun s => Ok ("Already up to date.", s);
     run_remote_update := refresh |}.

Definition no_commits (rev : string) : result (list string) := Ok [].

(** A clean checkout of [master] that tracks [origin/master]. *)
Definition clean_master : RepoState :=
  {| is_repo := true; head := OnBranch "master";
     references := ["master"; "origin/master"];
     remotes := ["origin"]; dirty := false;
     status_sb := "## master...origin/master";
     rev_list := no_commits |}.

Definition no_repo : RepoState :=
  {| is_repo := false; head := Detached; references := []; remotes := [];
     dirty := false; status_sb := EmptyString;
     rev_list := fun _ => Ok [] |}.

Definition with_dirty (s : RepoState) (b : bool) : RepoState :=
  {| is_repo := is_repo s; head := head s; references := references s;
     remotes := remotes s; dirty := b; status_sb := status_sb s;
     rev_list := rev_list s |}.

Definition with_head (s : RepoState) (h : Head) : RepoState :=
  {| is_repo := is_repo s; head := h; references := references s;
     remotes := remotes s; dirty := dirty s; status_sb := status_sb s;
     rev_list := rev_list s |}.

Definition with_status (s : RepoState) (st : string) : RepoState :=
  {| is_repo := is_repo s; head := head s; references := references s;
     remotes := remotes s; dirty := dirty s; status_sb := st;
     rev_list := rev_list s |}.

Definition with_references (s : RepoState) (refs : list string) : RepoState :=
  {| is_repo := is_repo s; head := head s; references := refs;
     remotes := remotes s; dirty := dirty s; status_sb := status_sb s;
     rev_list := rev_list s |}.

Definition with_remotes (s : RepoState) (rs : list string) : RepoState :=
  {| is_repo := is_repo s; head := head s; references := references s;
     remotes := rs; dirty := dirty s; status_sb := status_sb s;
     rev_list := rev_list s |}.

(** The world with one repository, in state [s], at [/work/svc]. *)
Definition one_repo (s : RepoState) : World :=
  update (fun _ => no_repo) "/work/svc" s.

Definition svc : Repo := {| working_dir := "/work/svc" |}.

Definition with_rev_list (s : RepoState)
    (f : string -> result (list string)) : RepoState :=
  {| is_repo := is_repo s; head := head s; references := references s;
     remotes := remotes s; dirty := dirty s; status_sb := status_sb s;
     rev_list := f |}.

(** [master] checked out, a local [dev] branch that was never pushed. *)
Definition master_with_local_dev : RepoState :=
  {| is_repo := true; head := OnBranch "master";
     references := ["master"; "dev"; "origin/master"];
     remotes := ["origin"]; dirty := false;
     status_sb := "## master...origin/master";
     rev_list := lookup_range [("origin/master..master", []);
                               ("master..origin/master", [])] |}.

(** [master] checked out and never pushed, [dev] present on both sides. *)
Definition local_master_with_dev : RepoState :=
  {| is_repo := true; head := OnBranch "master";
     references := ["master"; "dev"; "origin/dev"];
     remotes := ["origin"]; dirty := false;
     status_sb := "## master";
     rev_list := lookup_range [("origin/dev..dev", []);
                               ("dev..origin/dev", [])] |}.

(** Two commits to push, one to pull. *)
Definition diverged_master : RepoState :=
  with_rev_list clean_master
    (lookup_range [("origin/master..master", ["c3"; "c2"]);
                   ("master..origin/master", ["r1"])]).

(** Two repositories under [/work]. *)
Definition two_repos : World :=
  update (update (fun _ => no_repo) "/work/svc" clean_master)
    "/work/web" clean_master.

(** An action that fails with an ordinary exception. *)
Definition boom : exn :=
  mk_exn RuntimeError "boom" "Traceback (most recent call last): ...".

Definition failing (_ : string) (_ : Repo) : M unit := raise boom.

(** An action that is interrupted from the keyboard. *)
Definition interrupted (_ : string) (_ : Repo) : M unit :=
  raise (mk_exn KeyboardInterrupt EmptyString EmptyString).

(** An action that fails in [/work/svc] and prints elsewhere. *)
Definition fails_in_svc (repo_dir : string) (_ : Repo) : M unit :=
  if repo_dir =? "/work/svc" then raise boom else print "done".

(** [/work] with two repositories, a hidden directory and a plain one. *)
Definition fs_two : FileSystem :=
  {| walk_dirnames := fun p =>
       if p =? "/work" then [".cache"; "svc"; "docs"; "web"] else [];
     isdir := fun p =>
       (p =? "/work/.cache/.git") || (p =? "/work/svc/.git")
       || (p =? "/work/web/.git") |}.

(** [/work] is itself the repository. *)
Definition fs_root : FileSystem :=
  {| walk_dirnames := fun p => if p =? "/work" then ["src"; ".git"] else [];
     isdir := fun p => (p =? "/work/.git") || (p =? "/work/src") |}.

(** No repository anywhere. *)
Definition fs_none : FileSystem :=
  {| walk_dirnames := fun p => if p =? "/work" then ["src"] else [];
     isdir := fun p => p =? "/work/src" |}.

End Samples.

(** ** fabfile.py, continued: the git task, docker and maven *)

(** What the docker and maven parts read of the machine besides the
    above. *)
Record Host : Type := {
  (** [os.path.isfile] *)
  isfile : string -> bool;
  (** [os.environ.get] *)
  environ_get : string -> option string;
  (** [invoke.run(cmd, warn=True).failed]: the command runs in a shell,
      prints what it prints and does what it does, and the result tells
      whether its exit status was other than zero; with [warn=True] such a
      status is not raised *)
  invoke_run : string -> M bool
}.

Module Tools.

Import Fabfile.

(** Environment variable name for passing JVM arguments to Spring boot
    processes. *)
Definition ENV_JVM_ARGS_KEY : string := "PLATFORM_JVMARGS".

(** Default maven profile used, if none provided *)
Definition DEFAULT_MVN_PROFILE : string := "local-dev".

Section WithHost.

Variable env : Env.
Variable fs : FileSystem.
Variable host : Host.

(** *** The git task *)

(** [branch is not None] *)
Definition is_not_None (branch : option string) : bool :=
  match branch with Some _ => true | None => false end.

Definition git (list_ fetch pull update_ : bool) (branch : option string)
  : M unit :=
  if negb list_ && negb fetch && negb pull && negb update_ then
    _print_info env ("Add at least one action as parameter: "
                     ++ "[" ++ dq ++ "--list" ++ dq ++ ", " ++ dq ++ "--fetch" ++ dq
                     ++ ", " ++ dq ++ "--pull" ++ dq ++ ", " ++ dq ++ "--update"
                     ++ dq ++ "]")
  else
    (if list_ then
       _print_info env ("listing GIT repositories..." ++ LF) ;;
       (if is_not_None branch then
          _print_warn env ("-- omitting parameter " ++ dq ++ "--branch" ++ dq ++ ": "
                           ++ "it is not supported by the list action")
        else ret tt) ;;
       list_repos env fs
     else ret tt) ;;
    (if fetch then
       _print_info env ("fetching GIT repositories..." ++ LF) ;;
       fetch_all env fs branch
     else ret tt) ;;
    (if pull then
       _print_info env ("pulling GIT repositories..." ++ LF) ;;
       (if is_not_None branch then
          _print_warn env ("-- omitting parameter " ++ dq ++ "--branch" ++ dq ++ ": "
                           ++ "it is not supported by the list action")
        else ret tt) ;;
       pull_all env fs
     else ret tt) ;;
    (if update_ then
       _print_info env ("checking GIT repositories HEAD states..." ++ LF) ;;
       check_repo_states env fs branch
     else ret tt).

(** *** Running a shell command in a repository *)

(** [repo_obj = repo or Repo(repo_dir)]; a [Repo] object is truthy. *)
Definition repo_or_open (repo : option Repo) (repo_dir : string) : M Repo :=
  match repo with
  | Some r => ret r
  | None => Git.open repo_dir
  end.

Definition _execute_cmd_in_repo (cmd operationTitle repo_dir : string)
    (repo : option Repo) : M unit :=
  repo_obj <- repo_or_open repo repo_dir ;;
  repo_str <- _get_git_repo_str env repo_dir repo_obj ;;
  print (operationTitle ++ " in repo: " ++ repo_str ++ "..." ++ LF) ;;
  failed <- invoke_run host cmd ;;
  let repo_str := colored env repo_dir "blue" [] in
  (if failed
   then _print_warn env (operationTitle ++ " failed (repo: " ++ repo_str ++ ")")
   else _print_info env (operationTitle ++ " completed (repo: " ++ repo_str ++ ")")) ;;
  print EmptyString.

(** *** Docker related functions *)

Definition _re_start_dockers (repo_dir : string) (repo : Repo) : M unit :=
  let cmd := "cd " ++ repo_dir ++ " && docker-compose restart" in
  _execute_cmd_in_repo cmd "Restarting dockers" repo_dir (Some repo).

Definition _stop_dockers (repo_dir : string) (repo : Repo) : M unit :=
  let cmd := "cd " ++ repo_dir ++ " && docker-compose down" in
  _execute_cmd_in_repo cmd "Stopping dockers" repo_dir (Some repo).

Definition _start_dockers (repo_dir : string) (repo : Repo) : M unit :=
  let cmd := "cd " ++ repo_dir ++ " && docker-compose up -d" in
  _execute_cmd_in_repo cmd "Starting dockers" repo_dir (Some repo).

Definition _has_docker_compose_file (path : string) : bool :=
  let docker_compose_file := path_join path "docker-compose.yml" in
  isfile host docker_compose_file.

(** The loop of [_get_repo_paths_containing_dockers]. *)
Fixpoint collect_docker_paths (dir_path : string) (sub_directories : list string)
    (repo_paths : list string) : list string :=
  match sub_directories with
  | [] => repo_paths
  | sub_dir :: rest =>
      if startswith sub_dir "." then
        (* skip hidden directories *)
        collect_docker_paths dir_path rest repo_paths
      else
        let repo_path := path_join dir_path sub_dir in
        if _has_docker_compose_file repo_path
        then collect_docker_paths dir_path rest (repo_paths ++ [repo_path])%list
        else collect_docker_paths dir_path rest repo_paths
  end.

Definition _get_repo_paths_containing_dockers (dir_path : string) : list string :=
  let repo_paths := [] in
  let sub_directories := walk_dirnames fs dir_path in
  collect_docker_paths dir_path sub_directories repo_paths.

Definition list_docker_repos : M unit :=
  let current_directory := getcwd env in
  let git_repo_dirs := _get_repo_paths_containing_dockers current_directory in
  if is_empty git_repo_dirs then
    if _has_docker_compose_file current_directory then
      repo <- Git.open current_directory ;;
      repo_str <- _get_git_repo_str env current_directory repo ;;
      print repo_str ;;
      print "(repo is in current directory)"
    else
      print ("no GIT repos with dockers found from " ++ dq
             ++ current_directory ++ dq)
  else
    _run_action_for_each_repo env git_repo_dirs
      (fun repo_dir repo =>
         repo_str <- _get_git_repo_str env repo_dir repo ;; print repo_str).

(** The actions of [docker] once the directories are known, in the
    order of the source: list, down, up, restart. *)
Definition docker_actions (git_repo_dirs : list string)
    (up down restart list_ : bool) : M unit :=
  (if list_ then
     _print_info env ("Listing all repos that have dockers..." ++ LF) ;;
     list_docker_repos
   else ret tt) ;;
  (if down then
     _print_info env ("Stopping all dockers..." ++ LF) ;;
     _run_action_for_each_repo env git_repo_dirs
       (fun repo_dir repo => _stop_dockers repo_dir repo)
   else ret tt) ;;
  (if up then
     _print_info env ("Starting all dockers" ++ LF) ;;
     _run_action_for_each_repo env git_repo_dirs
       (fun repo_dir repo => _start_dockers repo_dir repo)
   else ret tt) ;;
  (if restart then
     _print_info env ("Restarting all dockers..." ++ LF) ;;
     _run_action_for_each_repo env git_repo_dirs
       (fun repo_dir repo => _re_start_dockers repo_dir repo)
   else ret tt).

Definition docker (up down restart list_ : bool) : M unit :=
  if negb up && negb down && negb restart && negb list_ then
    _print_info env ("Add at least one action as parameter: "
                     ++ "[" ++ dq ++ "--up" ++ dq ++ ", " ++ dq ++ "--down" ++ dq
                     ++ ", " ++ dq ++ "--restart" ++ dq ++ ", " ++ dq ++ "--list"
                     ++ dq ++ "]")
  else
    let current_directory := getcwd env in
    let git_repo_dirs := _get_repo_paths_containing_dockers current_directory in
    if is_empty git_repo_dirs then
      if _has_docker_compose_file current_directory then
        _print_info env "--> applying action to current directory" ;;
        (* git_repo_dirs.append(current_directory) *)
        docker_actions (git_repo_dirs ++ [current_directory])%list
          up down restart list_
      else
        print "No docker repos found =("
    else
      docker_actions git_repo_dirs up down restart list_.

(** *** Maven related functions *)

Definition _get_mvn_profile_str (profile : option string) : string :=
  match truthy profile with
  | Some p => " -P" ++ p
  | None => EmptyString
  end.

Definition _build_maven_project (repo_dir : string) (profile : option string)
  : M unit :=
  let mvn_tasks := "clean compile" in
  let profile_str := _get_mvn_profile_str profile in
  let cmd := "cd " ++ repo_dir ++ " && mvn " ++ mvn_tasks ++ profile_str in
  _execute_cmd_in_repo cmd "Running 'mvn clean compile'" repo_dir None.

Definition _install_maven_project (repo_dir : string) (profile : option string)
  : M unit :=
  let mvn_task := "install" in
  let profile_str := _get_mvn_profile_str profile in
  let cmd := "cd " ++ repo_dir ++ " && mvn " ++ mvn_task ++ profile_str in
  _execute_cmd_in_repo cmd "Running 'mvn install'" repo_dir None.

Definition _start_spring_boot (repo_dir jvm_args : string)
    (profile : option string) : M unit :=
  let mvn_task := "spring-boot:run" in
  let profile_str := _get_mvn_profile_str profile in
  let jvm_args_str :=
    if jvm_args =? EmptyString then EmptyString
    else dq ++ "-Dspring-boot.run.jvmArguments=" ++ jvm_args ++ dq in
  let cmd := "cd " ++ repo_dir ++ " && mvn " ++ mvn_task ++ " "
             ++ jvm_args_str ++ profile_str in
  _execute_cmd_in_repo cmd "Starting Spring Boot" repo_dir None.

Definition _has_mvn_file (path : string) : bool :=
  let mvn_file := path_join path "pom.xml" in
  isfile host mvn_file.

(** The loop of [_get_repo_paths_containing_maven_project]. *)
Fixpoint collect_maven_paths (dir_path : string) (sub_directories : list string)
    (repo_paths : list string) : list string :=
  match sub_directories with
  | [] => repo_paths
  | sub_dir :: rest =>
      if startswith sub_dir "." then
        (* skip hidden directories *)
        collect_maven_paths dir_path rest repo_paths
      else
        let repo_path := path_join dir_path sub_dir in
        if _has_mvn_file repo_path
        then collect_maven_paths dir_path rest (repo_paths ++ [repo_path])%list
        else collect_maven_paths dir_path rest repo_paths
  end.

Definition _get_repo_paths_containing_maven_project (dir_path : string)
  : list string :=
  let repo_paths := [] in
  let sub_directories := walk_dirnames fs dir_path in
  collect_maven_paths dir_path sub_directories repo_paths.

Definition _build_all_mvn_repos (profile : option string) : M unit :=
  let current_directory := getcwd env in
  let git_repo_dirs := _get_repo_paths_containing_maven_project current_directory in
  let build (dirs : list string) :=
    print ("Building all maven repositories..." ++ LF) ;;
    _run_action_for_each_repo env dirs
      (fun repo_dir repo => _build_maven_project repo_dir profile) in
  if is_empty git_repo_dirs then
    if _has_mvn_file current_directory
    then build (git_repo_dirs ++ [current_directory])%list
    else ret tt
  else build git_repo_dirs.

Definition list_mvn_repos : M unit :=
  let current_directory := getcwd env in
  let git_repo_dirs := _get_repo_paths_containing_maven_project current_directory in
  if is_empty git_repo_dirs then
    if _has_mvn_file current_directory then
      repo <- Git.open current_directory ;;
      repo_str <- _get_git_repo_str env current_directory repo ;;
      print repo_str ;;
      print "(repo is in current directory)"
    else
      print ("no GIT repos with mvn projects found from " ++ dq
             ++ current_directory ++ dq)
  else
    _run_action_for_each_repo env git_repo_dirs
      (fun repo_dir repo =>
         repo_str <- _get_git_repo_str env repo_dir repo ;; print repo_str).

(** [repo or ''] *)
Definition or_empty (x : option string) : string :=
  match truthy x with Some s => s | None => EmptyString end.

Definition mvn (run install build build_all : bool) (repo profile : option string)
  : M unit :=
  if negb (is_not_None (truthy repo)) && negb build_all then
    _print_error env
      "target repository must be defined with --repo=[repository-name]"
  else if negb build && negb build_all && negb install && negb run then
    _print_info env ("Add at least one action as parameter: "
                     ++ "[" ++ dq ++ "--build" ++ dq ++ ", " ++ dq ++ "--install"
                     ++ dq ++ ", " ++ dq ++ "--boot" ++ dq ++ "]")
  else
    let current_directory := getcwd env in
    let repo_dir := path_join current_directory (or_empty repo) in
    (if build_all then
       (if build
        then _print_warn env
               "omitting action 'build' (all mvn repositories are built)"
        else ret tt) ;;
       _build_all_mvn_repos profile
     else if build then
       _print_info env ("Trying to build repo in " ++ repo_dir ++ "..." ++ LF) ;;
       _build_maven_project repo_dir profile
     else ret tt) ;;
    (if install then _install_maven_project repo_dir profile else ret tt) ;;
    (if run then
       profile <- (match truthy profile with
                   | Some p => ret (Some p)
                   | None =>
                       _print_warn env
                         ("No profile defined for maven task - using default "
                          ++ "'" ++ DEFAULT_MVN_PROFILE ++ "'") ;;
                       ret (Some DEFAULT_MVN_PROFILE)
                   end) ;;
       let jvm_args := or_empty (environ_get host ENV_JVM_ARGS_KEY) in
       _print_info env ("Trying to start Spring Boot in dir '" ++ repo_dir
                        ++ "'..." ++ LF) ;;
       _start_spring_boot repo_dir jvm_args profile
     else ret tt).

End WithHost.

End Tools.

(** ** Reading runs, continued *)

Module Reading.

Import Fabfile Observations.

(** The calls that can change a repository: fetch, pull and the update
    of the remote. *)
Definition is_command (c : GitCall) : bool :=
  match c with
  | GitFetch _ _ | GitPull | RemoteUpdate => true
  | _ => false
  end.

(** The commands of a trace, with the repository each was run on. *)
Definition commands (t : list Event) : list (string * GitCall) :=
  filter (fun pc => is_command (snd pc)) (calls t).

(** Every command of the trace passes [allowed]. *)
Definition only_commands (allowed : GitCall -> bool) (t : list Event) : bool :=
  forallb (fun e => match e with
                    | Call _ c => negb (is_command c) || allowed c
                    | Out _ => true
                    end) t.

Definition no_command (_ : GitCall) : bool := false.

Definition is_fetch_from_origin (c : GitCall) : bool :=
  match c with GitFetch remote _ => remote =? "origin" | _ => false end.

Definition is_pull (c : GitCall) : bool :=
  match c with GitPull => true | _ => false end.

Definition is_remote_update (c : GitCall) : bool :=
  match c with RemoteUpdate => true | _ => false end.

(** The commands the git task may issue under its flags. *)
Definition requested (fetch pull update_ : bool) (c : GitCall) : bool :=
  (fetch && is_fetch_from_origin c) || (pull && is_pull c)
  || (update_ && is_remote_update c).

(** The text of [_get_git_repo_str] for a repository in state [s]. *)
Definition repo_str_of (env : Env) (repo_dir : string) (s : RepoState) : string :=
  "[" ++ colored env (match head s with
                      | Detached => "(detached HEAD)"
                      | OnBranch b => b
                      end) "green" []
  ++ "] " ++ dq ++ _get_git_repo_identifier_str env repo_dir ++ dq ++ " "
  ++ (if dirty s then "(" ++ colored env "DIRTY" "red" [] ++ ")" else EmptyString).

(** The queries [_get_git_repo_str] makes on a repository in state [s]. *)
Definition repo_str_queries (repo : Repo) (s : RepoState) : list Event :=
  Call (working_dir repo) IsDirty :: Call (working_dir repo) HeadIsDetached
  :: match head s with
     | Detached => []
     | OnBranch _ => [Call (working_dir repo) ActiveBranch]
     end.

(** The warning lines of [_fetch_repo] and of [_check_is_repo_up_to_date]. *)
Definition warn_line (env : Env) (text : string) : string :=
  "[" ++ colored env "warn" "yellow" [] ++ "] " ++ text.

Definition error_line (env : Env) (text : string) : string :=
  "[" ++ colored env "error" "red" [] ++ "] " ++ text.

Definition info_line (env : Env) (text : string) : string :=
  "[" ++ colored env "info" "green" [] ++ "] " ++ text.

(** The exception of [repo.remote()] without a remote named origin. *)
Definition no_origin : exn :=
  mk_exn ValueError "Remote named 'origin' didn't exist" EmptyString.

(** The exception of [Repo(path)] where there is no repository. *)
Definition not_a_repo (path : string) : exn :=
  mk_exn InvalidGitRepositoryError path EmptyString.

(** A computation all of whose runs issue allowed commands only. *)
Definition emits {A} (allowed : GitCall -> bool) (m : M A) : Prop :=
  forall w, only_commands allowed (trace (m w)) = true.

(** What the listing of one repository adds to the trace. *)
Definition listing (env : Env) (w : World) (repo_dir : string) : list Event :=
  (Call repo_dir OpenRepo
   :: repo_str_queries {| working_dir := repo_dir |} (w repo_dir)
   ++ [Out (repo_str_of env repo_dir (w repo_dir))])%list.

(** A subdirectory name that the docker discovery keeps. *)
Definition has_compose_file (host : Host) (dir_path sub_dir : string) : bool :=
  negb (startswith sub_dir ".")
  && isfile host (path_join (path_join dir_path sub_dir) "docker-compose.yml").

(** A subdirectory name that the maven discovery keeps. *)
Definition has_pom (host : Host) (dir_path sub_dir : string) : bool :=
  negb (startswith sub_dir ".")
  && isfile host (path_join (path_join dir_path sub_dir) "pom.xml").

End Reading.

(** ** More concrete collaborators *)

Module MoreSamples.

Import Samples.

(** A shell in which every command prints one line and succeeds, but
    for [docker-compose restart], which fails. *)
Definition shell (cmd : string) : M bool :=
  fun w => (Ok (contains cmd "restart"), w, [Out ("ran: " ++ cmd)]).

(** Compose files in [/work/docs], which is no repository, and in
    [/work/web]. *)
Definition host_docker : Host :=
  {| isfile := fun p =>
       (p =? "/work/docs/docker-compose.yml")
       || (p =? "/work/web/docker-compose.yml");
     environ_get := fun _ => None;
     invoke_run := shell |}.

(** Neither compose files nor maven projects. *)
Definition host_bare : Host :=
  {| isfile := fun _ => false;
     environ_get := fun _ => None;
     invoke_run := shell |}.

End MoreSamples.

(** ** Properties *)

Import Fabfile Observations Samples.

(** *** Running the definitions symbolically *)

Ltac simp :=
  cbv beta iota zeta delta
    [_pull_repo _fetch_repo _check_is_repo_up_to_date _update_remotes_in_repo
     _is_tracking_remote_branch _has_remote_branch _has_branch
     _get_remote_name _get_git_repo_str _is_repo_head_detached
     commits_ahead commits_behind report_counts
     forward_commit_count behind_commit_count
     branch_or_active _print_warn _print_info _print_error
     Git.head_is_detached Git.active_branch Git.remote Git.get_remotes
     Git.get_references Git.is_dirty Git.status Git.iter_commits Git.count
     Git.fetch Git.pull Git.remotes_origin Git.remote_update
     bind ret raise query command print value trace world_after
     remote_truthy remote_name_of negb fst snd app printed calls].

Ltac use_eqs :=
  match goal with
  | H : _ = _ |- _ => rewrite H
  end.

Lemma update_same (w : World) (p : string) (s : RepoState) :
  update w p s p = s.
Proof. unfold update. now rewrite String.eqb_refl. Qed.

(** Straight-line runs: unfold, and rewrite with what is known of the
    state. *)
Ltac run := repeat (simp; repeat use_eqs; rewrite ?update_same).

Ltac destruct_scrutinee :=
  match goal with
  | |- context [match ?x with _ => _ end] =>
      lazymatch x with
      | context [match _ with _ => _ end] => fail
      | _ => destruct x eqn:?
      end
  end.

(** All the paths of a run: unfold, and split on whatever the next step
    depends on. *)
Ltac crush :=
  repeat (simp; repeat use_eqs; rewrite ?update_same; try destruct_scrutinee).

Ltac no_pull :=
  let p := fresh in
  let H := fresh in
  intros p H; simpl in H; intuition congruence.

Lemma Ok_inj {A} (a b : A) : Ok a = Ok b -> a = b.
Proof. congruence. Qed.

Lemma existsb_origin (l : list string) :
  In "origin" l -> existsb (String.eqb "origin") l = true.
Proof.
  intros H. apply existsb_exists. exists "origin". split; [exact H|].
  apply String.eqb_refl.
Qed.

Lemma reads_after_refresh_sound (t : list Event) :
  references_read_after_refresh t -> reads_after_refresh t = true.
Proof.
  intros (pre & mid & post & p & q & ->).
  induction pre as [|e pre IH]; cbn [app reads_after_refresh].
  - cbn [is_refresh andb]. apply orb_true_iff. left.
    apply existsb_exists. exists (Call q GetReferences). split; [|reflexivity].
    apply in_or_app. right. left. reflexivity.
  - rewrite IH. apply orb_true_r.
Qed.

(** *** The pull decision *)

(** C1.  [_pull_repo] tries its skip rules in the order dirty, detached
    HEAD, not tracking, no remote branch.  A dirty repository is skipped
    as DIRTY whatever else holds of it, after the one query of the dirty
    flag; a clean detached one as DETACHED_HEAD; a clean attached one
    that does not track as NOT_TRACKING; one that tracks but has no
    remote branch among the references as NO_REMOTE_BRANCH.  In each of
    these runs [git pull] is not called; it is called when no rule
    matches. *)
Theorem pull_skip_rules (env : Env) (repo_dir : string) (repo : Repo) (w : World) :
  let s := w (working_dir repo) in
  let o := _pull_repo env repo_dir repo w in
  (dirty s = true ->
     pull_skipped env repo_dir DIRTY o /\
     calls (trace o) = [(working_dir repo, IsDirty)]) /\
  (dirty s = false -> head s = Detached ->
     pull_skipped env repo_dir DETACHED_HEAD o /\
     calls (trace o) = [(working_dir repo, IsDirty);
                        (working_dir repo, HeadIsDetached)]) /\
  (dirty s = false -> head s <> Detached ->
     value (_is_tracking_remote_branch repo w) = Ok false ->
     pull_skipped env repo_dir NOT_TRACKING o) /\
  (dirty s = false -> head s <> Detached ->
     value (_is_tracking_remote_branch repo w) = Ok true ->
     forall remote_name,
       value (_get_remote_name repo w) = Ok remote_name ->
       value (_has_remote_branch remote_name repo w) = Ok false ->
       pull_skipped env repo_dir NO_REMOTE_BRANCH o) /\
  (dirty s = false -> head s <> Detached ->
     value (_is_tracking_remote_branch repo w) = Ok true ->
     forall remote_name,
       value (_get_remote_name repo w) = Ok remote_name ->
       value (_has_remote_branch remote_name repo w) = Ok true ->
       In (working_dir repo, GitPull) (calls (trace o))).
Proof.
  intros s o; subst s o; unfold pull_skipped, pull_skip_line.
  destruct (dirty (w (working_dir repo))) eqn:Hdirty;
  destruct (head (w (working_dir repo))) as [|active] eqn:Hhead;
  repeat match goal with |- _ /\ _ => split end;
  try discriminate; try congruence;
  try (intros; run; repeat split; first [reflexivity | no_pull]).
  - (* not tracking *)
    intros _ _.
    destruct (remotes (w (working_dir repo))) eqn:Hr.
    + intros _. run. repeat split; try reflexivity; no_pull.
    + destruct (existsb (String.eqb "origin") (s :: l)) eqn:He.
      * run. intros Ht. apply Ok_inj in Ht. run.
        repeat split; try reflexivity; no_pull.
      * run. discriminate.
  - (* tracking, no remote branch *)
    intros _ _.
    destruct (remotes (w (working_dir repo))) eqn:Hr; [run; discriminate|].
    destruct (existsb (String.eqb "origin") (s :: l)) eqn:He;
      [|run; discriminate].
    run. intros Ht rn Hrn Hb. apply Ok_inj in Ht. apply Ok_inj in Hrn. subst rn.
    apply Ok_inj in Hb. run. repeat split; try reflexivity; no_pull.
  - (* no rule matches *)
    intros _ _.
    destruct (remotes (w (working_dir repo))) eqn:Hr; [run; discriminate|].
    destruct (existsb (String.eqb "origin") (s :: l)) eqn:He;
      [|run; discriminate].
    run. intros Ht rn Hrn Hb. apply Ok_inj in Ht. apply Ok_inj in Hrn. subst rn.
    apply Ok_inj in Hb. run.
    destruct (run_pull env (w (working_dir repo))) as [[out s']|e]; run.
    + destruct (out =? EmptyString); run; simpl; tauto.
    + simpl; tauto.
Qed.

(** The five cases of C1 on repositories at [/work/svc]: a dirty one
    that is detached as well, a clean detached one, one without
    upstream, one whose remote branch is not among the references, and
    one that is pulled. *)
Lemma pull_skip_rules_witness :
  pull_skipped env0 "/work/svc" DIRTY
    (_pull_repo env0 "/work/svc" svc
       (one_repo (with_head (with_dirty clean_master true) Detached))) /\
  pull_skipped env0 "/work/svc" DETACHED_HEAD
    (_pull_repo env0 "/work/svc" svc (one_repo (with_head clean_master Detached))) /\
  pull_skipped env0 "/work/svc" NOT_TRACKING
    (_pull_repo env0 "/work/svc" svc
       (one_repo (with_status clean_master "## master"))) /\
  pull_skipped env0 "/work/svc" NO_REMOTE_BRANCH
    (_pull_repo env0 "/work/svc" svc
       (one_repo (with_references clean_master ["master"]))) /\
  In ("/work/svc", GitPull)
    (calls (trace (_pull_repo env0 "/work/svc" svc (one_repo clean_master)))).
Proof.
  pose (neq := fun (b : string) (H : OnBranch b = Detached) =>
                 eq_ind (OnBranch b)
                   (fun h => match h with OnBranch _ => True | Detached => False end)
                   I Detached H).
  split; [|split; [|split; [|split]]].
  - exact (proj1 (proj1 (pull_skip_rules env0 "/work/svc" svc
             (one_repo (with_head (with_dirty clean_master true) Detached)))
             eq_refl)).
  - exact (proj1 (proj1 (proj2 (pull_skip_rules env0 "/work/svc" svc
             (one_repo (with_head clean_master Detached))))
             eq_refl eq_refl)).
  - exact (proj1 (proj2 (proj2 (pull_skip_rules env0 "/work/svc" svc
             (one_repo (with_status clean_master "## master")))))
             eq_refl (neq "master") eq_refl).
  - exact (proj1 (proj2 (proj2 (proj2 (pull_skip_rules env0 "/work/svc" svc
             (one_repo (with_references clean_master ["master"]))))))
             eq_refl (neq "master") eq_refl "origin" eq_refl eq_refl).
  - exact (proj2 (proj2 (proj2 (proj2 (pull_skip_rules env0 "/work/svc" svc
             (one_repo clean_master)))))
             eq_refl (neq "master") eq_refl "origin" eq_refl eq_refl).
Defined.

(** *** Classification of a detached HEAD *)

(** C7.  On a repository whose HEAD is detached, both classifications
    answer [False] straight after the query of the HEAD, for every remote
    name and whatever remotes are configured: neither the remotes nor the
    references are looked at. *)
Theorem detached_classification (w : World) (repo : Repo) (remote_name : string) :
  head (w (working_dir repo)) = Detached ->
  _has_remote_branch remote_name repo w
    = (Ok false, w, [Call (working_dir repo) HeadIsDetached]) /\
  _is_tracking_remote_branch repo w
    = (Ok false, w, [Call (working_dir repo) HeadIsDetached]).
Proof.
  intros H. run. split; reflexivity.
Qed.

(** C7 on a detached checkout with two remotes and a matching reference. *)
Lemma detached_classification_witness :
  let w := one_repo (with_remotes (with_head clean_master Detached)
                       ["origin"; "upstream"]) in
  value (_has_remote_branch "origin" svc w) = Ok false /\
  value (_is_tracking_remote_branch svc w) = Ok false.
Proof.
  intros w.
  destruct (detached_classification w svc "origin" eq_refl) as [Hb Ht].
  rewrite Hb, Ht. split; reflexivity.
Defined.

(** *** Ahead and behind *)

(** C8.  The count of commits ahead taken with [A] as the local and [B]
    as the remote branch is the count of commits behind taken with [B] as
    the local and [A] as the remote branch: both enumerate the range
    [B..A], and the runs are the same down to the call made. *)
Theorem ahead_behind_symmetric (repo : Repo) (A B : string) (w : World) :
  commits_ahead repo A B w = commits_behind repo B A w /\
  forward_commit_count repo A B w = behind_commit_count repo B A w.
Proof.
  split; reflexivity.
Qed.

(** *** Which remote is fetched *)



(** *** The remote name *)

(** C4 fails on the code.  [_get_remote_name] means to fall back on the
    default name when there is no remote ([else DEFAULT_GIT_REMOTE_NAME]),
    but [repo.remote()] raises instead of giving a falsy value: with no
    remote at all the resolution raises [ValueError] where the
    specification has the default name, and so it does with [upstream]
    as the single configured remote, where the specification has the
    name [upstream]. *)
Lemma remote_name_not_single_remote :
  let single := one_repo (with_remotes clean_master ["upstream"]) in
  let none := one_repo (with_remotes clean_master []) in
  spec_remote_name (remotes (single "/work/svc")) = "upstream" /\
  value (_get_remote_name svc single)
    = Raise (mk_exn ValueError "Remote named 'origin' didn't exist" EmptyString) /\
  spec_remote_name (remotes (none "/work/svc")) = "origin" /\
  value (_get_remote_name svc none)
    = Raise (mk_exn ValueError "Remote named 'origin' didn't exist" EmptyString).
Proof.
  repeat split.
Qed.

(** Where the resolution returns.  For a repository that has a remote
    named [origin] among its remotes, however many there are, the
    resolved name is [origin], which is the fixed default name; the
    resolution does not fail and changes nothing.  When [origin] is the
    single configured remote this is the name the specification asks
    for. *)
Theorem remote_name_origin_when_configured (repo : Repo) (w : World) :
  In "origin" (remotes (w (working_dir repo))) ->
  _get_remote_name repo w
    = (Ok DEFAULT_GIT_REMOTE_NAME, w, [Call (working_dir repo) GetRemote]) /\
  (remotes (w (working_dir repo)) = ["origin"] ->
   value (_get_remote_name repo w)
     = Ok (spec_remote_name (remotes (w (working_dir repo))))).
Proof.
  intros H. apply existsb_origin in H.
  assert (E : _get_remote_name repo w
    = (Ok DEFAULT_GIT_REMOTE_NAME, w, [Call (working_dir repo) GetRemote])).
  { run. reflexivity. }
  split; [exact E|].
  intros Hs. rewrite E, Hs. reflexivity.
Qed.

(** The same on a repository with the remotes [upstream] and [origin],
    and on one with [origin] alone. *)
Lemma remote_name_origin_when_configured_witness :
  value (_get_remote_name svc
           (one_repo (with_remotes clean_master ["upstream"; "origin"])))
    = Ok "origin" /\
  value (_get_remote_name svc (one_repo clean_master))
    = Ok (spec_remote_name ["origin"]).
Proof.
  split.
  - destruct (remote_name_origin_when_configured svc
                (one_repo (with_remotes clean_master ["upstream"; "origin"]))
                (or_intror (or_introl eq_refl))) as [E _].
    rewrite E. reflexivity.
  - exact (proj2 (remote_name_origin_when_configured svc (one_repo clean_master)
                    (or_introl eq_refl)) eq_refl).
Defined.

(** *** The remote-branch test and the branch override *)

(** C2 fails on the code: [_has_remote_branch] builds the name to look
    for from the branch that is checked out, never from the override.
    With [master] checked out, [dev] never pushed and the override
    [dev], the test answers [True] although [origin/dev] is not among the
    references; the check goes on to enumerate [origin/dev..dev] and ends
    in the error of git.  With [master] never pushed and [dev] on both
    sides, the test answers [False], and the check skips the repository
    saying that [origin/dev] does not exist, although it is among the
    references. *)
Theorem check_override_tests_active_branch :
  let unpushed_dev := one_repo master_with_local_dev in
  let unpushed_master := one_repo local_master_with_dev in
  (any_ref_is (references master_with_local_dev) "origin/dev" = false /\
   value (_has_remote_branch "origin" svc unpushed_dev) = Ok true /\
   In ("/work/svc", IterCommits "origin/dev..dev")
      (calls (trace (_check_is_repo_up_to_date env0 "/work/svc" svc (Some "dev")
                       unpushed_dev))) /\
   value (_check_is_repo_up_to_date env0 "/work/svc" svc (Some "dev") unpushed_dev)
     = Raise (mk_exn GitCommandError "bad revision 'dev..origin/dev'" EmptyString))
  /\
  (any_ref_is (references local_master_with_dev) "origin/dev" = true /\
   value (_has_remote_branch "origin" svc unpushed_master) = Ok false /\
   printed (trace (_check_is_repo_up_to_date env0 "/work/svc" svc (Some "dev")
                     unpushed_master))
     = ["[" ++ termcolor "warn" "yellow" [] ++ "] -- Skipping repo "
        ++ termcolor "svc" "white" ["bold"] ++ "(no matching remote branch "
        ++ dq ++ termcolor "origin/dev" "blue" [] ++ dq ++ ")"]).
Proof.
  vm_compute. repeat split; tauto.
Qed.

(** *** The refresh of the check *)

(** C3, as stated, fails.  In the check of a clean [master] that tracks
    [origin/master] the remote-branch test is made, on the references as
    they are, and the refresh follows it: the calls of the test are in
    the trace, no refresh comes before them, and nowhere are the
    references read after the refresh.  And where the references lack
    [origin/master], which the refresh would bring, the repository is
    skipped for the missing remote branch without any refresh. *)
Lemma check_tests_before_refresh :
  let w := one_repo clean_master in
  let o := _check_is_repo_up_to_date env0 "/work/svc" svc None w in
  let stale := one_repo (with_references clean_master ["master"]) in
  let o' := _check_is_repo_up_to_date env0 "/work/svc" svc None stale in
  (exists pre post,
     trace o = (pre ++ trace (_has_remote_branch "origin" svc w) ++ post)%list /\
     ~ In (Call "/work/svc" RemoteUpdate) pre /\
     In (Call "/work/svc" RemoteUpdate) post) /\
  ~ references_read_after_refresh (trace o) /\
  calls (trace o')
    = [("/work/svc", HeadIsDetached); ("/work/svc", GetRemote);
       ("/work/svc", ActiveBranch); ("/work/svc", GetReferences);
       ("/work/svc", HeadIsDetached); ("/work/svc", ActiveBranch);
       ("/work/svc", GetReferences)] /\
  value (_has_remote_branch "origin" svc
           (update stale "/work/svc"
              {| is_repo := true; head := OnBranch "master";
                 references := ["master"; "origin/master"];
                 remotes := ["origin"]; dirty := false;
                 status_sb := "## master...origin/master";
                 rev_list := no_commits |}))
    = Ok true /\
  refresh (stale "/work/svc")
    = Ok {| is_repo := true; head := OnBranch "master";
            references := ["master"; "origin/master"];
            remotes := ["origin"]; dirty := false;
            status_sb := "## master...origin/master";
            rev_list := no_commits |}.
Proof.
  intros w o stale o'. split; [|split; [|split; [|split]]].
  - exists [Call "/work/svc" HeadIsDetached; Call "/work/svc" GetRemote;
            Call "/work/svc" ActiveBranch; Call "/work/svc" GetReferences].
    eexists. split; [vm_compute; reflexivity|]. split.
    + cbn [In]. intuition discriminate.
    + cbn [In]. tauto.
  - intros H. apply reads_after_refresh_sound in H. vm_compute in H. discriminate.
  - reflexivity.
  - reflexivity.
  - reflexivity.
Qed.

(** C3, amended.  In every run of the check the references are read,
    and the remote-branch test made, before any refresh: no read of the
    references follows a refresh in the trace, and a refresh is issued
    only in a run in which the test, made on the references as they were
    at the start, answered [True]. *)
Theorem check_refreshes_after_remote_test (env : Env) (repo_dir : string)
    (repo : Repo) (branch : option string) (w : World) :
  let o := _check_is_repo_up_to_date env repo_dir repo branch w in
  ~ references_read_after_refresh (trace o) /\
  (forall p, In (Call p RemoteUpdate) (trace o) ->
     exists remote_name,
       value (_get_remote_name repo w) = Ok remote_name /\
       value (_has_remote_branch remote_name repo w) = Ok true).
Proof.
  intros o; subst o. split.
  - intros H. apply reads_after_refresh_sound in H. revert H.
    crush; simpl; try discriminate.
  - intros p. crush; intros H;
      first [ eexists; split; [reflexivity | repeat use_eqs; reflexivity]
            | exfalso; cbn [In] in H; intuition congruence ].
Qed.

(** C3 as amended on the check of a clean [master]: the refresh is in the
    trace, and the test made on the starting references answered
    [True]. *)
Lemma check_refreshes_after_remote_test_witness :
  let w := one_repo clean_master in
  let o := _check_is_repo_up_to_date env0 "/work/svc" svc None w in
  In (Call "/work/svc" RemoteUpdate) (trace o) /\
  ~ references_read_after_refresh (trace o) /\
  exists remote_name,
    value (_get_remote_name svc w) = Ok remote_name /\
    value (_has_remote_branch remote_name svc w) = Ok true.
Proof.
  intros w o.
  assert (H : In (Call "/work/svc" RemoteUpdate) (trace o)).
  { vm_compute. tauto. }
  split; [exact H|].
  destruct (check_refreshes_after_remote_test env0 "/work/svc" svc None w)
    as [Hno Hyes].
  split; [exact Hno|].
  exact (Hyes "/work/svc" H).
Defined.

(** *** Discovery and the fall back to the working directory *)

Lemma collect_repo_paths_filter (fs : FileSystem) (dir_path : string)
    (sub_directories repo_paths : list string) :
  collect_repo_paths fs dir_path sub_directories repo_paths
  = (repo_paths
     ++ map (path_join dir_path) (filter (qualifies fs dir_path) sub_directories))%list.
Proof.
  revert repo_paths.
  induction sub_directories as [|sub_dir rest IH]; intros repo_paths;
    cbn [collect_repo_paths filter map].
  - now rewrite app_nil_r.
  - unfold qualifies at 1, _has_git_repo.
    destruct (startswith sub_dir ".") eqn:Hhidden; cbn [negb andb].
    + apply IH.
    + destruct (isdir fs (path_join (path_join dir_path sub_dir) ".git"));
        rewrite IH; [|reflexivity].
      cbn [map]. now rewrite <- app_assoc.
Qed.

Lemma task_falls_back (env : Env) (fs : FileSystem)
    (action : string -> Repo -> M unit) (task : M unit) :
  task = (if is_empty (_get_git_repo_paths fs (getcwd env))
          then _run_action_if_is_repo env fs (getcwd env) action
          else _run_action_for_each_repo env
                 (_get_git_repo_paths fs (getcwd env)) action) ->
  falls_back_to_root env fs task action.
Proof.
  intros ->. unfold falls_back_to_root, _get_git_repo_paths.
  rewrite collect_repo_paths_filter. cbn [app].
  destruct (filter (qualifies fs (getcwd env)) (walk_dirnames fs (getcwd env)))
    as [|d found]; cbn [map is_empty]; unfold _run_action_if_is_repo.
  - split; [congruence|]. split; intros _ H; rewrite H; reflexivity.
  - split; [reflexivity|]. split; discriminate.
Qed.

(** C5.  [_get_git_repo_paths] returns, in the order of the listing, the
    paths of exactly those immediate subdirectories whose name does not
    start with a dot and that contain a [.git] directory.  Each of
    [fetch_all], [pull_all] and [check_repo_states] acts on these when
    there are any; when there is none it acts on the working directory
    alone if that contains [.git], and otherwise only prints that no
    repository was found.  [list_repos] follows the same policy with
    its own lines. *)
Theorem discovery_and_fallback (env : Env) (fs : FileSystem) :
  (forall dir_path,
     _get_git_repo_paths fs dir_path
     = map (path_join dir_path)
         (filter (qualifies fs dir_path) (walk_dirnames fs dir_path))) /\
  (forall dir_path p,
     In p (_get_git_repo_paths fs dir_path) <->
     exists sub_dir,
       In sub_dir (walk_dirnames fs dir_path) /\
       startswith sub_dir "." = false /\
       p = path_join dir_path sub_dir /\
       _has_git_repo fs p = true) /\
  (forall branch,
     falls_back_to_root env fs (fetch_all env fs branch)
       (fun repo_dir repo => _fetch_repo env repo_dir repo branch)) /\
  falls_back_to_root env fs (pull_all env fs)
    (fun repo_dir repo => _pull_repo env repo_dir repo) /\
  (forall branch,
     falls_back_to_root env fs (check_repo_states env fs branch)
       (fun repo_dir repo => _check_is_repo_up_to_date env repo_dir repo branch)) /\
  (let root := getcwd env in
   let found := filter (qualifies fs root) (walk_dirnames fs root) in
   (found <> [] ->
      list_repos env fs
      = _run_action_for_each_repo env (map (path_join root) found)
          (fun repo_dir repo =>
             repo_str <- _get_git_repo_str env repo_dir repo ;; print repo_str)) /\
   (found = [] -> _has_git_repo fs root = true ->
      list_repos env fs
      = (repo <- Git.open root ;;
         repo_str <- _get_git_repo_str env root repo ;;
         print repo_str ;;
         _print_info env "(repo is in current directory)")) /\
   (found = [] -> _has_git_repo fs root = false ->
      list_repos env fs
      = _print_info env ("No GIT repos found from " ++ dq ++ root ++ dq))).
Proof.
  assert (E : forall dir_path,
     _get_git_repo_paths fs dir_path
     = map (path_join dir_path)
         (filter (qualifies fs dir_path) (walk_dirnames fs dir_path))).
  { intros dir_path. unfold _get_git_repo_paths.
    now rewrite collect_repo_paths_filter. }
  split; [exact E|]. split; [|split; [|split; [|split]]].
  - intros dir_path p. rewrite E, in_map_iff. split.
    + intros (sub_dir & <- & Hin). apply filter_In in Hin as [Hin Hq].
      unfold qualifies in Hq. apply andb_true_iff in Hq as [Hdot Hgit].
      apply negb_true_iff in Hdot. exists sub_dir. repeat split; assumption.
    + intros (sub_dir & Hin & Hdot & -> & Hgit). exists sub_dir.
      split; [reflexivity|]. apply filter_In. split; [exact Hin|].
      unfold qualifies. rewrite Hdot. exact Hgit.
  - intros branch. now apply task_falls_back.
  - now apply task_falls_back.
  - intros branch. now apply task_falls_back.
  - unfold list_repos. rewrite E. cbv zeta.
    destruct (filter (qualifies fs (getcwd env)) (walk_dirnames fs (getcwd env)))
      as [|d found]; cbn [map is_empty].
    + split; [congruence|]. split; intros _ H; rewrite H; reflexivity.
    + split; [reflexivity|]. split; discriminate.
Qed.

(** C5 on three working directories: one with two repositories next to a
    hidden and a plain directory, one that is itself the repository, and
    one without any. *)
Lemma discovery_and_fallback_witness :
  _get_git_repo_paths fs_two "/work" = ["/work/svc"; "/work/web"] /\
  pull_all env0 fs_two
    = _run_action_for_each_repo env0 ["/work/svc"; "/work/web"]
        (fun repo_dir repo => _pull_repo env0 repo_dir repo) /\
  pull_all env0 fs_root
    = (repo <- Git.open "/work" ;; _try_run env0 (_pull_repo env0 "/work" repo)) /\
  pull_all env0 fs_none
    = _print_error env0 ("No GIT repos found from " ++ dq ++ "/work" ++ dq).
Proof.
  split; [|split; [|split]].
  - rewrite (proj1 (discovery_and_fallback env0 fs_two) "/work"). reflexivity.
  - destruct (discovery_and_fallback env0 fs_two) as (_ & _ & _ & Hpull & _ & _).
    apply (proj1 Hpull). discriminate.
  - destruct (discovery_and_fallback env0 fs_root) as (_ & _ & _ & Hpull & _ & _).
    apply (proj1 (proj2 Hpull)); reflexivity.
  - destruct (discovery_and_fallback env0 fs_none) as (_ & _ & _ & Hpull & _ & _).
    apply (proj2 (proj2 Hpull)); reflexivity.
Defined.

(** *** Failures in a batch *)

Lemma try_run_catches (env : Env) (func : M unit) (w : World) :
  (forall e, value (func w) = Raise e -> is_Exception e = true) ->
  _try_run env func w
  = (Ok tt, world_after (func w),
     (trace (func w) ++ error_lines env (value (func w)))%list).
Proof.
  unfold _try_run, value, world_after, trace, error_lines.
  destruct (func w) as [[[[]|e] w1] t1]; cbn [fst snd]; intros H.
  - now rewrite app_nil_r.
  - rewrite (H e eq_refl).
    unfold bind, _print_error, print, ret.
    destruct (DEBUG_MODE env); reflexivity.
Qed.

Lemma each_repo_isolated (env : Env) (all : list string)
    (func : string -> Repo -> M unit) :
  (forall d repo w,
     all_open all w ->
     all_open all (world_after (func d repo w)) /\
     (forall e, value (func d repo w) = Raise e -> is_Exception e = true)) ->
  forall dirs, incl dirs all ->
  forall w, all_open all w ->
  _run_action_for_each_repo env dirs func w
  = (Ok tt, fst (isolated_run env dirs func w),
     snd (isolated_run env dirs func w)).
Proof.
  intros Hfunc dirs. induction dirs as [|d rest IH]; intros Hincl w Hopen.
  - reflexivity.
  - cbn [_run_action_for_each_repo isolated_run].
    assert (Hd : is_repo (w d) = true) by (apply Hopen, Hincl; now left).
    destruct (Hfunc d {| working_dir := d |} w Hopen) as [Hopen' Hexn].
    unfold bind at 1. unfold Git.open, query. cbn [working_dir]. rewrite Hd.
    unfold bind at 1. rewrite (try_run_catches env _ w Hexn).
    rewrite IH; [|intros x Hx; apply Hincl; now right|exact Hopen'].
    destruct (isolated_run env rest func
                (world_after (func d {| working_dir := d |} w))) as [w' t].
    cbn [fst snd app]. now rewrite <- app_assoc.
Qed.

(** C6, as stated, fails.  The line logged for a failure carries the
    text of the exception and nothing of the repository: the same line
    is logged for [/work/svc] and for [/work/web], and neither path
    occurs in it.  An exception that is not an [Exception], here a
    keyboard interrupt in the first repository, is not caught and ends
    the batch before the second is opened; so does a directory that
    does not open as a repository, since [Repo(repo_dir)] is called
    outside [_try_run]. *)
Lemma error_line_does_not_name_repo :
  let lines d :=
    printed (trace (_run_action_for_each_repo env0 [d] failing two_repos)) in
  let o := _run_action_for_each_repo env0 ["/work/svc"; "/work/web"]
             interrupted two_repos in
  let o' := _run_action_for_each_repo env0 ["/work/old"; "/work/web"]
              failing two_repos in
  lines "/work/svc" = ["[" ++ termcolor "error" "red" [] ++ "] Message: boom"] /\
  lines "/work/web" = lines "/work/svc" /\
  existsb (fun line => names_repository env0 line "/work/svc")
    (lines "/work/svc") = false /\
  existsb (fun line => names_repository env0 line "/work/web")
    (lines "/work/web") = false /\
  value o = Raise (mk_exn KeyboardInterrupt EmptyString EmptyString) /\
  calls (trace o) = [("/work/svc", OpenRepo)] /\
  value o' = Raise (mk_exn InvalidGitRepositoryError "/work/old" EmptyString) /\
  calls (trace o') = [("/work/old", OpenRepo)].
Proof.
  vm_compute. repeat split.
Qed.

(** C6, amended.  For a list of directories that all open as
    repositories, and an action that leaves them so and raises nothing
    but [Exception]s, the batch returns normally, and every directory of
    the list is opened and acted on in turn, each in the world its
    predecessor left: a failure of the action is followed by one error
    line with [str(error)], and by the traceback when [DEBUG_MODE] is
    set, and by the next repository. *)
Theorem failures_isolated_per_repo (env : Env) (dirs : list string)
    (func : string -> Repo -> M unit) (w : World) :
  all_open dirs w ->
  (forall d repo w',
     all_open dirs w' ->
     all_open dirs (world_after (func d repo w')) /\
     (forall e, value (func d repo w') = Raise e -> is_Exception e = true)) ->
  _run_action_for_each_repo env dirs func w
  = (Ok tt, fst (isolated_run env dirs func w),
     snd (isolated_run env dirs func w)).
Proof.
  intros Hopen Hfunc.
  apply (each_repo_isolated env dirs func Hfunc dirs (incl_refl dirs) w Hopen).
Qed.

Lemma two_repos_open : all_open ["/work/svc"; "/work/web"] two_repos.
Proof.
  intros d [<-|[<-|[]]]; reflexivity.
Defined.

Lemma fails_in_svc_harmless (d : string) (repo : Repo) (w : World) :
  all_open ["/work/svc"; "/work/web"] w ->
  all_open ["/work/svc"; "/work/web"] (world_after (fails_in_svc d repo w)) /\
  (forall e, value (fails_in_svc d repo w) = Raise e -> is_Exception e = true).
Proof.
  intros H. unfold fails_in_svc. destruct (d =? "/work/svc").
  - split; [exact H|]. intros e He. apply (f_equal (fun r =>
      match r with Raise x => is_Exception x | Ok _ => true end)) in He.
    symmetry. exact He.
  - split; [exact H|]. intros e He. discriminate He.
Defined.

(** C6 as amended on two repositories with an action that fails in the
    first: the failure is logged and the second is opened and acted
    on. *)
Lemma failures_isolated_per_repo_witness :
  trace (_run_action_for_each_repo env0 ["/work/svc"; "/work/web"]
           fails_in_svc two_repos)
  = [Call "/work/svc" OpenRepo;
     Out ("[" ++ termcolor "error" "red" [] ++ "] Message: boom");
     Call "/work/web" OpenRepo;
     Out "done"] /\
  value (_run_action_for_each_repo env0 ["/work/svc"; "/work/web"]
           fails_in_svc two_repos) = Ok tt.
Proof.
  rewrite (failures_isolated_per_repo env0 ["/work/svc"; "/work/web"]
             fails_in_svc two_repos two_repos_open fails_in_svc_harmless).
  split; reflexivity.
Defined.

(** *** The report of the check *)

(** C9.  In a check that reaches its report (HEAD on a branch, the
    remote [origin] configured, the target branch and the remote branch
    of the checked-out one among the references, the refresh and the two
    enumerations successful), two lines are printed before the report,
    and then: when both counts are zero, exactly one line, the
    up-to-date line of the origin, and no ahead line; otherwise no
    up-to-date line, but the line [Origin ... is ahead by N commit(s)]
    exactly when the count behind is above zero, and the line
    [Local branch ... is ahead by N commit(s)] exactly when the count
    ahead is above zero, in this order, each with its own count. *)
Theorem check_report_lines (env : Env) (repo_dir : string) (repo : Repo)
    (branch : option string) (w : World) (active target : string)
    (refreshed : RepoState) (ahead behind : list string) :
  let s := w (working_dir repo) in
  let remote_branch := "origin" ++ "/" ++ target in
  let up_to_date :=
    "--> Origin (" ++ colored env remote_branch "blue" [] ++ ") is "
    ++ colored env "up-to-date" "green" [] ++ " with local branch" in
  let origin_ahead :=
    "--> Origin (" ++ colored env remote_branch "blue" [] ++ ") is "
    ++ colored env ("ahead by " ++ str_of_nat (List.length behind)
                    ++ " commit(s)") "green" [] in
  let local_ahead :=
    "--> Local branch (" ++ colored env target "blue" [] ++ ") is "
    ++ colored env ("ahead by " ++ str_of_nat (List.length ahead)
                    ++ " commit(s)") "green" [] in
  head s = OnBranch active ->
  In "origin" (remotes s) ->
  value (branch_or_active branch repo w) = Ok target ->
  any_ref_is (references s) target = true ->
  any_ref_is (references s) ("origin" ++ "/" ++ active) = true ->
  run_remote_update env s = Ok refreshed ->
  rev_list refreshed (remote_branch ++ ".." ++ target) = Ok ahead ->
  rev_list refreshed (target ++ ".." ++ remote_branch) = Ok behind ->
  exists updating checking report,
    printed (trace (_check_is_repo_up_to_date env repo_dir repo branch w))
      = updating :: checking :: report /\
    (List.length behind = 0 -> List.length ahead = 0 ->
       report = [up_to_date]) /\
    (0 < List.length behind -> 0 < List.length ahead ->
       report = [origin_ahead; local_ahead]) /\
    (0 < List.length behind -> List.length ahead = 0 ->
       report = [origin_ahead]) /\
    (List.length behind = 0 -> 0 < List.length ahead ->
       report = [local_ahead]).
Proof.
  intros s remote_branch up_to_date origin_ahead local_ahead
    Hhead Horigin Htarget Hbranch Hremote Hupdate Hahead Hbehind.
  subst s remote_branch up_to_date origin_ahead local_ahead.
  apply existsb_origin in Horigin.
  assert (Htruthy : match truthy branch with Some b => b | None => active end
                    = target).
  { revert Htarget. run. destruct (truthy branch); run; congruence. }
  destruct (truthy branch) as [b|] eqn:Hb; subst target;
    destruct (dirty (w (working_dir repo))) eqn:Hdirty;
    destruct (dirty refreshed) eqn:Hdirty';
    destruct (head refreshed) as [|active'] eqn:Hhead';
    destruct behind as [|cb behind]; destruct ahead as [|ca ahead];
    do 3 eexists; (split; [run; reflexivity|]);
    cbn [length Nat.ltb Nat.leb app];
    (split; [|split; [|split]]); intros; first [reflexivity | lia].
Qed.

(** C9 on a checkout that is level with its remote, and on one that is
    two commits ahead and one behind: the lines as they reach the
    terminal, where the up-to-date phrase and the ahead phrases can be
    read in them. *)
Lemma check_report_lines_witness :
  let level :=
    "--> Origin (" ++ termcolor "origin/master" "blue" [] ++ ") is "
    ++ termcolor "up-to-date" "green" [] ++ " with local branch" in
  let origin_ahead :=
    "--> Origin (" ++ termcolor "origin/master" "blue" [] ++ ") is "
    ++ termcolor "ahead by 1 commit(s)" "green" [] in
  let local_ahead :=
    "--> Local branch (" ++ termcolor "master" "blue" [] ++ ") is "
    ++ termcolor "ahead by 2 commit(s)" "green" [] in
  let updating :=
    "[" ++ termcolor "info" "green" [] ++ "] Updating remotes in repo: ["
    ++ termcolor "master" "green" [] ++ "] " ++ dq
    ++ termcolor "svc" "white" ["bold"] ++ dq ++ " " ++ LF in
  let checking :=
    "Checking repository state [" ++ termcolor "master" "green" [] ++ "] "
    ++ dq ++ termcolor "svc" "white" ["bold"] ++ dq ++ " " in
  printed (trace (_check_is_repo_up_to_date env0 "/work/svc" svc None
                    (one_repo clean_master)))
  = [updating; checking; level] /\
  printed (trace (_check_is_repo_up_to_date env0 "/work/svc" svc None
                    (one_repo diverged_master)))
  = [updating; checking; origin_ahead; local_ahead] /\
  contains level "up-to-date" = true /\
  contains level "ahead by" = false /\
  contains origin_ahead "ahead by 1 commit(s)" = true /\
  contains local_ahead "ahead by 2 commit(s)" = true /\
  contains origin_ahead "up-to-date" = false /\
  contains local_ahead "up-to-date" = false.
Proof.
  intros level origin_ahead local_ahead updating checking.
  split; [|split; [|vm_compute; repeat split]].
  - destruct (check_report_lines env0 "/work/svc" svc None (one_repo clean_master)
                "master" "master"
                (with_references clean_master
                   ["master"; "origin/master"; "origin/master"])
                [] []
                eq_refl (or_introl eq_refl) eq_refl eq_refl eq_refl eq_refl
                eq_refl eq_refl)
      as (upd & chk & report & Hprinted & Hlevel & _).
    rewrite Hprinted, (Hlevel eq_refl eq_refl).
    vm_compute in Hprinted. injection Hprinted as <- <- _. reflexivity.
  - destruct (check_report_lines env0 "/work/svc" svc None
                (one_repo diverged_master) "master" "master"
                (with_references diverged_master
                   ["master"; "origin/master"; "origin/master"])
                ["c3"; "c2"] ["r1"]
                eq_refl (or_introl eq_refl) eq_refl eq_refl eq_refl eq_refl
                eq_refl eq_refl)
      as (upd & chk & report & Hprinted & _ & Hboth & _).
    rewrite Hprinted, (Hboth (le_n 1) (le_S 1 1 (le_n 1))).
    vm_compute in Hprinted. injection Hprinted as <- <- _. reflexivity.
Defined.

(** ** Further properties *)

Import Tools Reading MoreSamples.

Lemma any_ref_is_In (refs : list string) (name : string) :
  any_ref_is refs name = true <-> In name refs.
Proof.
  induction refs as [|r refs IH]; cbn [any_ref_is In].
  - split; [discriminate|tauto].
  - destruct (r =? name) eqn:E.
    + apply String.eqb_eq in E. tauto.
    + apply String.eqb_neq in E. rewrite IH. tauto.
Qed.

(** *** The fetch and check decisions *)

(** X1.  [_fetch_repo] leaves a detached HEAD alone after the one query
    of the HEAD, with its warning and nothing else.  With HEAD on a
    branch and the remote origin configured, it skips the repository
    when the remote branch of the checked-out branch is not among the
    references: one warning that names the checked-out branch, no
    command, nothing changed.  And it issues no [git fetch] unless HEAD
    is on a branch, origin is configured and that reference exists. *)
Theorem fetch_skip_rules (env : Env) (repo_dir : string) (repo : Repo)
    (branch : option string) (w : World) :
  let s := w (working_dir repo) in
  let o := _fetch_repo env repo_dir repo branch w in
  (head s = Detached ->
     o = (Ok tt, w,
          [Call (working_dir repo) HeadIsDetached;
           Out (warn_line env ("-- skipping repo: "
                               ++ _get_git_repo_identifier_str env repo_dir
                               ++ " (HEAD is currently detached)" ++ LF))])) /\
  (forall active,
     head s = OnBranch active -> In "origin" (remotes s) ->
     ~ In ("origin" ++ "/" ++ active) (references s) ->
     value o = Ok tt /\ world_after o = w /\ commands (trace o) = [] /\
     printed (trace o)
       = [warn_line env ("-- skipping repo: "
                         ++ _get_git_repo_identifier_str env repo_dir
                         ++ " (no matching remote repository " ++ dq
                         ++ _as_bolded_white_str env active ++ dq ++ ")" ++ LF)]) /\
  (forall p remote b,
     In (p, GitFetch remote b) (calls (trace o)) ->
     exists active,
       head s = OnBranch active /\ In "origin" (remotes s) /\
       In ("origin" ++ "/" ++ active) (references s)).
Proof.
  intros s o; subst s o. split; [|split].
  - intros H. run. reflexivity.
  - intros active Hh Ho Hr. apply existsb_origin in Ho.
    assert (Hf : any_ref_is (references (w (working_dir repo)))
                   ("origin" ++ "/" ++ active) = false).
    { destruct (any_ref_is _ _) eqn:E; [|reflexivity].
      apply any_ref_is_In in E. contradiction. }
    run. repeat split; reflexivity.
  - intros p remote b.
    destruct (head (w (working_dir repo))) as [|active] eqn:Hh.
    + run. cbn [In]. intuition congruence.
    + destruct (existsb (String.eqb "origin") (remotes (w (working_dir repo))))
        eqn:Ho.
      * destruct (any_ref_is (references (w (working_dir repo)))
                    ("origin" ++ "/" ++ active)) eqn:Hr.
        -- intros _. exists active. split; [reflexivity|]. split.
           ++ apply existsb_exists in Ho as (x & Hx & E).
              apply String.eqb_eq in E. now subst x.
           ++ now apply any_ref_is_In.
        -- run. cbn [In]. intuition congruence.
      * run. cbn [In]. intuition congruence.
Qed.

Lemma any_ref_is_false (refs : list string) (name : string) :
  ~ In name refs -> any_ref_is refs name = false.
Proof.
  intros H. destruct (any_ref_is refs name) eqn:E; [|reflexivity].
  apply any_ref_is_In in E. contradiction.
Qed.

(** X2.  [_check_is_repo_up_to_date] leaves a detached HEAD alone after
    the one query of the HEAD.  With HEAD on a branch and origin
    configured, it skips the repository, with the warning that names the
    target branch, when the target (the override, else the checked-out
    branch) is not among the references; and, the target being there,
    with the warning that names the remote branch of the target, when
    the remote branch of the checked-out branch is not among them.  A
    skipped check issues no command and changes nothing. *)
Theorem check_skip_rules (env : Env) (repo_dir : string) (repo : Repo)
    (branch : option string) (w : World) :
  let s := w (working_dir repo) in
  let o := _check_is_repo_up_to_date env repo_dir repo branch w in
  let skipping := "-- Skipping repo " ++ _get_git_repo_identifier_str env repo_dir in
  (head s = Detached ->
     o = (Ok tt, w,
          [Call (working_dir repo) HeadIsDetached;
           Out (warn_line env
                  (skipping ++ " (currently HEAD is detached from any branches) "))])) /\
  (forall active target,
     head s = OnBranch active -> In "origin" (remotes s) ->
     value (branch_or_active branch repo w) = Ok target ->
     ~ In target (references s) ->
     value o = Ok tt /\ world_after o = w /\ commands (trace o) = [] /\
     printed (trace o)
       = [warn_line env (skipping ++ "(no matching branch " ++ dq ++ target
                         ++ dq ++ ")")]) /\
  (forall active target,
     head s = OnBranch active -> In "origin" (remotes s) ->
     value (branch_or_active branch repo w) = Ok target ->
     In target (references s) ->
     ~ In ("origin" ++ "/" ++ active) (references s) ->
     value o = Ok tt /\ world_after o = w /\ commands (trace o) = [] /\
     printed (trace o)
       = [warn_line env (skipping ++ "(no matching remote branch " ++ dq
                         ++ colored env ("origin" ++ "/" ++ target) "blue" []
                         ++ dq ++ ")")]).
Proof.
  intros s o skipping; subst s o skipping. split; [|split].
  - intros H. run. reflexivity.
  - intros active target Hh Ho Ht Hr. apply existsb_origin in Ho.
    apply any_ref_is_false in Hr. revert Ht. run.
    destruct (truthy branch) as [b|]; run; intros Ht; apply Ok_inj in Ht;
      subst target; run; repeat split; reflexivity.
  - intros active target Hh Ho Ht Hin Hr. apply existsb_origin in Ho.
    apply any_ref_is_false in Hr. apply any_ref_is_In in Hin. revert Ht. run.
    destruct (truthy branch) as [b|]; run; intros Ht; apply Ok_inj in Ht;
      subst target; run; repeat split; reflexivity.
Qed.

Lemma fetch_repo_commands (env : Env) (repo_dir : string) (repo : Repo)
    (branch : option string) (w : World) :
  only_commands is_fetch_from_origin (trace (_fetch_repo env repo_dir repo branch w))
  = true.
Proof. crush; reflexivity. Qed.

Lemma pull_repo_commands (env : Env) (repo_dir : string) (repo : Repo) (w : World) :
  only_commands is_pull (trace (_pull_repo env repo_dir repo w)) = true.
Proof. crush; reflexivity. Qed.

Lemma check_repo_commands (env : Env) (repo_dir : string) (repo : Repo)
    (branch : option string) (w : World) :
  only_commands is_remote_update
    (trace (_check_is_repo_up_to_date env repo_dir repo branch w)) = true.
Proof. crush; reflexivity. Qed.

(** *** The display line of a repository *)

Lemma repo_str_run (env : Env) (repo_dir : string) (repo : Repo)
    (w : World) :
  _get_git_repo_str env repo_dir repo w
  = (Ok (repo_str_of env repo_dir (w (working_dir repo))), w,
     repo_str_queries repo (w (working_dir repo))).
Proof.
  unfold repo_str_of, repo_str_queries.
  destruct (dirty (w (working_dir repo))) eqn:Hd;
    destruct (head (w (working_dir repo))) eqn:Hh; run; reflexivity.
Qed.

Lemma prefix_refl (a : string) : String.prefix a a = true.
Proof.
  induction a as [|c a IH]; cbn [String.prefix]; [reflexivity|].
  destruct (ascii_dec c c) as [_|N]; [exact IH|contradiction].
Qed.

Lemma contains_prefix (s sub : string) :
  String.prefix sub s = true -> contains s sub = true.
Proof. intros H. destruct s; cbn [contains]; now rewrite H. Qed.

Lemma contains_tail (c : ascii) (s sub : string) :
  contains s sub = true -> contains (String c s) sub = true.
Proof. intros H. cbn [contains]. rewrite H. apply orb_true_r. Qed.

Lemma contains_app_l (a b c : string) :
  contains b c = true -> contains (a ++ b) c = true.
Proof.
  intros H. induction a as [|x a IH]; cbn [append]; [exact H|].
  now apply contains_tail.
Qed.

(** X6.  [_get_git_repo_str] never fails and changes nothing: it asks
    for the dirty flag and the HEAD, for the branch only when HEAD is
    not detached, and gives the line with the branch or the
    [(detached HEAD)] marker, and with the DIRTY marker exactly for a
    dirty repository. *)
Theorem repo_str_never_fails (env : Env) (repo_dir : string) (repo : Repo)
    (w : World) :
  let s := w (working_dir repo) in
  let o := _get_git_repo_str env repo_dir repo w in
  o = (Ok (repo_str_of env repo_dir s), w, repo_str_queries repo s) /\
  commands (trace o) = [] /\
  (head s = Detached -> ~ In (working_dir repo, ActiveBranch) (calls (trace o))) /\
  (dirty s = true ->
   contains (repo_str_of env repo_dir s) ("(" ++ colored env "DIRTY" "red" [] ++ ")")
   = true).
Proof.
  intros s o; subst s o. rewrite repo_str_run. cbn [trace snd].
  split; [reflexivity|]. split; [|split].
  - unfold repo_str_queries. destruct (head (w (working_dir repo))); reflexivity.
  - intros H. unfold repo_str_queries. rewrite H. cbn [calls In].
    intuition congruence.
  - intros H. unfold repo_str_of. rewrite H.
    do 7 apply contains_app_l. apply contains_prefix, prefix_refl.
Qed.

(** *** Composition *)

Lemma bind_assoc {A B C} (m : M A) (k : A -> M B) (h : B -> M C) (w : World) :
  bind (bind m k) h w = bind m (fun a => bind (k a) h) w.
Proof.
  unfold bind. destruct (m w) as [[[a|e] w1] t1]; [|reflexivity].
  destruct (k a w1) as [[[b|e] w2] t2]; [|reflexivity].
  destruct (h b w2) as [[r w3] t3]. now rewrite app_assoc.
Qed.

Lemma bind_ext {A B} (m : M A) (k k' : A -> M B) (w : World) :
  (forall a w', k a w' = k' a w') -> bind m k w = bind m k' w.
Proof.
  intros H. unfold bind. destruct (m w) as [[[a|e] w1] t1]; [|reflexivity].
  now rewrite H.
Qed.

Lemma only_commands_app (allowed : GitCall -> bool) (t1 t2 : list Event) :
  only_commands allowed (t1 ++ t2)
  = only_commands allowed t1 && only_commands allowed t2.
Proof. apply forallb_app. Qed.

Lemma only_commands_lines (allowed : GitCall -> bool) (lines : list string) :
  only_commands allowed (map Out lines) = true.
Proof. induction lines; [reflexivity|exact IHlines]. Qed.

Lemma only_commands_weaken (allowed allowed' : GitCall -> bool) (t : list Event) :
  (forall c, allowed c = true -> allowed' c = true) ->
  only_commands allowed t = true -> only_commands allowed' t = true.
Proof.
  intros H. unfold only_commands. rewrite !forallb_forall.
  intros Ht e He. specialize (Ht e He). destruct e as [p c|s]; [|reflexivity].
  apply orb_true_iff in Ht as [Ht|Ht]; apply orb_true_iff; [now left|right; auto].
Qed.

Lemma only_commands_In (allowed : GitCall -> bool) (t : list Event) :
  only_commands allowed t = true ->
  forall p c, In (p, c) (commands t) -> allowed c = true.
Proof.
  unfold only_commands, commands. intros H p c Hin.
  apply filter_In in Hin as [Hin Hc]. cbn [snd] in Hc.
  induction t as [|[q d|s] t IH]; cbn [calls In forallb] in *; [contradiction| |].
  - apply andb_true_iff in H as [H1 H2]. destruct Hin as [E|Hin].
    + injection E as -> ->. rewrite Hc in H1. exact H1.
    + exact (IH H2 Hin).
  - apply IH; [exact H|exact Hin].
Qed.

Lemma only_no_command (t : list Event) :
  only_commands no_command t = true -> commands t = [].
Proof.
  intros H. destruct (commands t) as [|[p c] l] eqn:E; [reflexivity|].
  assert (Hin : In (p, c) (commands t)) by (rewrite E; now left).
  now apply (only_commands_In _ _ H) in Hin.
Qed.

Lemma emits_ret {A} allowed (a : A) : emits allowed (ret a).
Proof. intros w. reflexivity. Qed.

Lemma emits_print allowed (s : string) : emits allowed (print s).
Proof. intros w. reflexivity. Qed.

Lemma emits_bind {A B} allowed (m : M A) (k : A -> M B) :
  emits allowed m -> (forall a, emits allowed (k a)) -> emits allowed (bind m k).
Proof.
  intros Hm Hk w. unfold bind. specialize (Hm w).
  destruct (m w) as [[[a|e] w1] t1]; [|exact Hm].
  specialize (Hk a w1). destruct (k a w1) as [[r w2] t2].
  cbn [trace snd] in *. rewrite only_commands_app, Hm, Hk. reflexivity.
Qed.

Lemma emits_open allowed (path : string) : emits allowed (Git.open path).
Proof. intros w. reflexivity. Qed.

Lemma try_run_trace (env : Env) (func : M unit) (w : World) :
  exists lines,
    trace (_try_run env func w) = (trace (func w) ++ map Out lines)%list /\
    world_after (_try_run env func w) = world_after (func w).
Proof.
  unfold _try_run. destruct (func w) as [[[[]|e] w1] t1].
  - exists []. cbn. now rewrite app_nil_r.
  - destruct (is_Exception e).
    + unfold bind, _print_error, print, ret.
      destruct (DEBUG_MODE env).
      * exists [error_line env ("Message: " ++ exn_str e);
                error_line env (exn_traceback e)]. split; reflexivity.
      * exists [error_line env ("Message: " ++ exn_str e)]. split; reflexivity.
    + exists []. cbn. now rewrite app_nil_r.
Qed.

Lemma emits_try_run allowed (env : Env) (func : M unit) :
  emits allowed func -> emits allowed (_try_run env func).
Proof.
  intros H w. destruct (try_run_trace env func w) as (lines & -> & _).
  now rewrite only_commands_app, H, only_commands_lines.
Qed.

Lemma emits_for_each allowed (env : Env) (func : string -> Repo -> M unit)
    (dirs : list string) :
  (forall d r, emits allowed (func d r)) ->
  emits allowed (_run_action_for_each_repo env dirs func).
Proof.
  intros H. induction dirs as [|d rest IH]; cbn [_run_action_for_each_repo].
  - apply emits_ret.
  - apply emits_bind; [apply emits_open|]. intros r.
    apply emits_bind; [now apply emits_try_run|]. intros _. exact IH.
Qed.

Lemma emits_if_is_repo allowed (env : Env) (fs : FileSystem)
    (func : string -> Repo -> M unit) (dir_path : string) :
  (forall d r, emits allowed (func d r)) ->
  emits allowed (_run_action_if_is_repo env fs dir_path func).
Proof.
  intros H. unfold _run_action_if_is_repo. destruct (_has_git_repo fs dir_path).
  - apply emits_bind; [apply emits_open|]. intros r. now apply emits_try_run.
  - apply emits_print.
Qed.

Lemma emits_repo_str allowed (env : Env) (repo_dir : string) (repo : Repo) :
  emits allowed (_get_git_repo_str env repo_dir repo).
Proof.
  intros w. rewrite repo_str_run. cbn [trace snd].
  unfold repo_str_queries. destruct (head (w (working_dir repo))); reflexivity.
Qed.

Lemma emits_fetch_all (env : Env) (fs : FileSystem) (branch : option string) :
  emits is_fetch_from_origin (fetch_all env fs branch).
Proof.
  unfold fetch_all. destruct (is_empty _);
    [apply emits_if_is_repo|apply emits_for_each];
    intros d r w; apply fetch_repo_commands.
Qed.

Lemma emits_pull_all (env : Env) (fs : FileSystem) :
  emits is_pull (pull_all env fs).
Proof.
  unfold pull_all. destruct (is_empty _);
    [apply emits_if_is_repo|apply emits_for_each];
    intros d r w; apply pull_repo_commands.
Qed.

Lemma emits_check_repo_states (env : Env) (fs : FileSystem) (branch : option string) :
  emits is_remote_update (check_repo_states env fs branch).
Proof.
  unfold check_repo_states. destruct (is_empty _);
    [apply emits_if_is_repo|apply emits_for_each];
    intros d r w; apply check_repo_commands.
Qed.

Lemma emits_list_repos (env : Env) (fs : FileSystem) :
  emits no_command (list_repos env fs).
Proof.
  unfold list_repos. destruct (is_empty _).
  - destruct (_has_git_repo fs (getcwd env)).
    + apply emits_bind; [apply emits_open|]. intros r.
      apply emits_bind; [apply emits_repo_str|]. intros s.
      apply emits_bind; [apply emits_print|]. intros _. apply emits_print.
    + apply emits_print.
  - apply emits_for_each. intros d r.
    apply emits_bind; [apply emits_repo_str|]. intros s. apply emits_print.
Qed.

(** X3.  Each task issues one kind of command only, whatever the
    directories hold: [fetch_all] nothing but [git fetch] from origin,
    [pull_all] nothing but [git pull], [check_repo_states] nothing but
    the update of the remote, and [list_repos] no command at all. *)
Theorem tasks_issue_their_own_command (env : Env) (fs : FileSystem)
    (branch : option string) (w : World) :
  (forall p c, In (p, c) (commands (trace (fetch_all env fs branch w))) ->
     exists b, c = GitFetch "origin" b) /\
  (forall p c, In (p, c) (commands (trace (pull_all env fs w))) -> c = GitPull) /\
  (forall p c, In (p, c) (commands (trace (check_repo_states env fs branch w))) ->
     c = RemoteUpdate) /\
  commands (trace (list_repos env fs w)) = [].
Proof.
  split; [|split; [|split]].
  - intros p c H. apply (only_commands_In _ _ (emits_fetch_all env fs branch w)) in H.
    destruct c; try discriminate. apply String.eqb_eq in H. subst. now eexists.
  - intros p c H. apply (only_commands_In _ _ (emits_pull_all env fs w)) in H.
    destruct c; try discriminate. reflexivity.
  - intros p c H.
    apply (only_commands_In _ _ (emits_check_repo_states env fs branch w)) in H.
    destruct c; try discriminate. reflexivity.
  - apply only_no_command, emits_list_repos.
Qed.

(** *** The batch runner *)

(** X11.  [_try_run] is the action itself when the action returns or
    raises something that is not an [Exception]; and what [_try_run]
    raises is never an [Exception], and is what the action raised. *)
Theorem try_run_passes_or_catches (env : Env) (func : M unit) (w : World) :
  (forall u, value (func w) = Ok u -> _try_run env func w = func w) /\
  (forall e, value (func w) = Raise e -> is_Exception e = false ->
     _try_run env func w = func w) /\
  (forall e, value (_try_run env func w) = Raise e ->
     is_Exception e = false /\ value (func w) = Raise e).
Proof.
  unfold _try_run, value.
  destruct (func w) as [[[[]|e'] w1] t1]; cbn [fst].
  - split; [reflexivity|]. split; discriminate.
  - split; [discriminate|]. split.
    + intros e E He. injection E as ->. now rewrite He.
    + intros e. destruct (is_Exception e') eqn:He'.
      * unfold bind, _print_error, print, ret.
        destruct (DEBUG_MODE env); discriminate.
      * cbn [fst]. intros E. injection E as ->. split; [exact He'|reflexivity].
Qed.

(** X12.  Running the batch over two lists put together is running it
    over the first and then, if that returned, over the second, in the
    world the first left. *)
Theorem for_each_app (env : Env) (func : string -> Repo -> M unit)
    (dirs more : list string) (w : World) :
  _run_action_for_each_repo env (dirs ++ more) func w
  = (_run_action_for_each_repo env dirs func ;;
     _run_action_for_each_repo env more func) w.
Proof.
  revert w. induction dirs as [|d rest IH]; intros w;
    cbn [app _run_action_for_each_repo].
  - unfold bind, ret. destruct (_run_action_for_each_repo env more func w)
      as [[r w'] t]. reflexivity.
  - rewrite bind_assoc. apply bind_ext. intros r w1.
    rewrite bind_assoc. apply bind_ext. intros _ w2. apply IH.
Qed.

Lemma try_run_raises (env : Env) (func : M unit) (w : World) (e : exn) :
  value (_try_run env func w) = Raise e ->
  is_Exception e = false /\ value (func w) = Raise e.
Proof.
  unfold _try_run, value. destruct (func w) as [[[[]|e'] w1] t1]; cbn [fst].
  - discriminate.
  - destruct (is_Exception e') eqn:He'.
    + unfold bind, _print_error, print, ret.
      destruct (DEBUG_MODE env); discriminate.
    + cbn [fst]. intros E. injection E as ->. now split.
Qed.

(** X13.  A batch ends in an exception in two ways only, and the
    exception that comes out is the one raised there: the action raised,
    on a directory of the list, something that is not an [Exception]; or
    [Repo(repo_dir)] itself raised on a directory of the list. *)
Theorem batch_failure_causes (env : Env) (func : string -> Repo -> M unit)
    (dirs : list string) (w : World) (e : exn) :
  value (_run_action_for_each_repo env dirs func w) = Raise e ->
  (exists d w',
     In d dirs /\ is_Exception e = false /\
     value (func d {| working_dir := d |} w') = Raise e) \/
  (exists d w', In d dirs /\ value (Git.open d w') = Raise e).
Proof.
  revert w. induction dirs as [|d rest IH]; intros w;
    cbn [_run_action_for_each_repo].
  - discriminate.
  - unfold bind at 1.
    destruct (Git.open d w) as [[[r|e'] w0] t0] eqn:Hopen.
    + assert (Hr : r = {| working_dir := d |}).
      { revert Hopen. unfold Git.open, query. cbn [working_dir].
        destruct (is_repo (w d)); intros E; now inversion E. }
      subst r. unfold bind at 1.
      pose proof (try_run_raises env (func d {| working_dir := d |}) w0) as Hcatch.
      destruct (_try_run env (func d {| working_dir := d |}) w0)
        as [[[u|e'] w1] t1] eqn:Ht.
      * specialize (IH w1).
        destruct (_run_action_for_each_repo env rest func w1) as [[r w2] t2].
        cbn [value fst] in *. intros H.
        destruct (IH H) as [(x & w' & Hx & Hrest)|(x & w' & Hx & Hrest)];
          [left|right]; exists x, w'; (split; [now right|exact Hrest]).
      * cbn [value fst]. intros H. injection H as ->. left.
        destruct (Hcatch e eq_refl) as [Hn Hf].
        exists d, w0. split; [now left|]. now split.
    + cbn [value fst]. intros H. injection H as ->. right.
      exists d, w. split; [now left|]. now rewrite Hopen.
Qed.

(** X13 on a batch whose first directory, [/work/docs], is a plain
    directory. *)
Lemma batch_failure_causes_witness :
  value (_run_action_for_each_repo env0 ["/work/docs"; "/work/web"] failing
           two_repos)
    = Raise (not_a_repo "/work/docs") /\
  ((exists d w',
      In d ["/work/docs"; "/work/web"] /\
      is_Exception (not_a_repo "/work/docs") = false /\
      value (failing d {| working_dir := d |} w') = Raise (not_a_repo "/work/docs")) \/
   (exists d w',
      In d ["/work/docs"; "/work/web"] /\
      value (Git.open d w') = Raise (not_a_repo "/work/docs"))).
Proof.
  split; [reflexivity|].
  exact (batch_failure_causes env0 failing ["/work/docs"; "/work/web"] two_repos
           (not_a_repo "/work/docs") eq_refl).
Defined.

Lemma printed_app (t1 t2 : list Event) :
  printed (t1 ++ t2) = (printed t1 ++ printed t2)%list.
Proof.
  induction t1 as [|[p c|s] t1 IH]; cbn [app printed]; [reflexivity|exact IH|].
  now rewrite IH.
Qed.

Lemma printed_listing (env : Env) (w : World) (dirs : list string) :
  printed (flat_map (listing env w) dirs)
  = map (fun d => repo_str_of env d (w d)) dirs.
Proof.
  induction dirs as [|d rest IH]; [reflexivity|].
  cbn [flat_map map]. rewrite printed_app, IH. unfold listing, repo_str_queries.
  destruct (head (w d)); reflexivity.
Qed.

Lemma for_each_listing (env : Env) (dirs : list string) (w : World) :
  all_open dirs w ->
  _run_action_for_each_repo env dirs
    (fun repo_dir repo =>
       repo_str <- _get_git_repo_str env repo_dir repo ;; print repo_str) w
  = (Ok tt, w, flat_map (listing env w) dirs).
Proof.
  induction dirs as [|d rest IH]; intros Hopen; [reflexivity|].
  cbn [_run_action_for_each_repo flat_map].
  assert (Hd : is_repo (w d) = true) by (apply Hopen; now left).
  assert (Ha : (repo_str <- _get_git_repo_str env d {| working_dir := d |} ;;
                print repo_str) w
               = (Ok tt, w,
                  (repo_str_queries {| working_dir := d |} (w d)
                   ++ [Out (repo_str_of env d (w d))])%list)).
  { unfold bind. rewrite repo_str_run. reflexivity. }
  unfold bind at 1. unfold Git.open, query. cbn [working_dir]. rewrite Hd.
  unfold bind at 1. unfold _try_run. rewrite Ha.
  rewrite IH; [|intros x Hx; apply Hopen; now right].
  unfold listing. cbn [app]. now rewrite <- !app_assoc.
Qed.

(** X7.  When [list_repos] finds repositories in subdirectories and
    they all open, it returns normally, changes nothing, and prints one
    line for each, in the order of the listing: the display line of that
    repository. *)
Theorem list_repos_lines (env : Env) (fs : FileSystem) (w : World) :
  let dirs := _get_git_repo_paths fs (getcwd env) in
  dirs <> [] -> all_open dirs w ->
  list_repos env fs w = (Ok tt, w, flat_map (listing env w) dirs) /\
  printed (trace (list_repos env fs w))
  = map (fun d => repo_str_of env d (w d)) dirs.
Proof.
  intros dirs Hne Hopen.
  assert (E : list_repos env fs w = (Ok tt, w, flat_map (listing env w) dirs)).
  { unfold list_repos. fold dirs. destruct dirs as [|d rest]; [congruence|].
    cbn [is_empty]. now apply for_each_listing. }
  split; [exact E|]. rewrite E. apply printed_listing.
Qed.

(** X7 on the two repositories of [/work]. *)
Lemma list_repos_lines_witness :
  printed (trace (list_repos env0 fs_two two_repos))
  = [repo_str_of env0 "/work/svc" clean_master;
     repo_str_of env0 "/work/web" clean_master] /\
  world_after (list_repos env0 fs_two two_repos) = two_repos.
Proof.
  pose (neq := fun (H : ["/work/svc"; "/work/web"] = []) =>
                 eq_ind ["/work/svc"; "/work/web"]
                   (fun l => match l with [] => False | _ :: _ => True end)
                   I [] H).
  destruct (list_repos_lines env0 fs_two two_repos neq two_repos_open)
    as [Hrun Hprinted].
  split; [exact Hprinted|]. rewrite Hrun. reflexivity.
Defined.

(** *** The tests on references and tracking *)

(** X8.  [_has_branch] never fails and answers [True] exactly when the
    name is among the references (branches, remote branches and tags
    alike).  [_has_remote_branch] never fails, changes nothing, and
    answers [True] exactly when HEAD is on a branch and the remote name,
    a slash and that branch are among the references. *)
Theorem reference_tests_are_membership (repo : Repo) (w : World)
    (branch remote_name : string) :
  let s := w (working_dir repo) in
  (exists b, _has_branch repo branch w
             = (Ok b, w, [Call (working_dir repo) GetReferences]) /\
             (b = true <-> In branch (references s))) /\
  (exists b, value (_has_remote_branch remote_name repo w) = Ok b /\
             world_after (_has_remote_branch remote_name repo w) = w /\
             (b = true <->
              exists active, head s = OnBranch active /\
                             In (remote_name ++ "/" ++ active) (references s))).
Proof.
  intros s; subst s. split.
  - eexists. split; [reflexivity|]. apply any_ref_is_In.
  - destruct (head (w (working_dir repo))) as [|active] eqn:Hh.
    + exists false. run. repeat split; try discriminate.
      intros (active & E & _). discriminate.
    + eexists. run. repeat split.
      * intros H. exists active. split; [reflexivity|]. now apply any_ref_is_In.
      * intros (a & E & H). injection E as <-. now apply any_ref_is_In.
Qed.

(** X9.  With HEAD on a branch, [_is_tracking_remote_branch] answers
    [False] without asking for the remote when no remote is configured;
    with origin configured it answers whether the short status contains
    [branch...origin/branch]; and with remotes but none named origin it
    raises the [ValueError] of [repo.remote()]. *)
Theorem tracking_cases (repo : Repo) (w : World) (active : string) :
  let s := w (working_dir repo) in
  head s = OnBranch active ->
  (remotes s = [] ->
     _is_tracking_remote_branch repo w
     = (Ok false, w, [Call (working_dir repo) HeadIsDetached;
                      Call (working_dir repo) GetRemotes])) /\
  (In "origin" (remotes s) ->
     value (_is_tracking_remote_branch repo w)
     = Ok (contains (status_sb s)
             (active ++ "..." ++ "origin" ++ "/" ++ active))) /\
  (remotes s <> [] -> ~ In "origin" (remotes s) ->
     value (_is_tracking_remote_branch repo w) = Raise no_origin).
Proof.
  intros s Hh; subst s. split; [|split].
  - intros Hr. run. reflexivity.
  - intros Ho. pose proof (existsb_origin _ Ho) as He.
    destruct (remotes (w (working_dir repo))) as [|r rs] eqn:Hr; [contradiction|].
    run. reflexivity.
  - intros Hr Ho.
    assert (He : existsb (String.eqb "origin") (remotes (w (working_dir repo)))
                 = false).
    { destruct (existsb _ _) eqn:E; [|reflexivity].
      apply existsb_exists in E as (x & Hx & E). apply String.eqb_eq in E.
      subst x. contradiction. }
    destruct (remotes (w (working_dir repo))) as [|r rs] eqn:Hr'; [congruence|].
    run. reflexivity.
Qed.

(** X9 on a checkout of [master] that tracks [origin/master]. *)
Lemma tracking_cases_witness :
  value (_is_tracking_remote_branch svc (one_repo clean_master)) = Ok true /\
  value (_is_tracking_remote_branch svc
           (one_repo (with_remotes clean_master ["upstream"])))
    = Raise no_origin /\
  value (_is_tracking_remote_branch svc (one_repo (with_remotes clean_master [])))
    = Ok false.
Proof.
  pose (neq := fun (r : string) (H : [r] = []) =>
                 eq_ind [r] (fun l => match l with [] => False | _ :: _ => True end)
                   I [] H).
  split; [|split].
  - exact (proj1 (proj2 (tracking_cases svc (one_repo clean_master) "master"
                           eq_refl))
             (or_introl eq_refl)).
  - refine (proj2 (proj2 (tracking_cases svc
                            (one_repo (with_remotes clean_master ["upstream"]))
                            "master" eq_refl))
              (neq "upstream") _).
    intros [H|[]]. discriminate H.
  - rewrite (proj1 (tracking_cases svc (one_repo (with_remotes clean_master []))
                      "master" eq_refl) eq_refl).
    reflexivity.
Defined.

Lemma existsb_origin_false (l : list string) :
  ~ In "origin" l -> existsb (String.eqb "origin") l = false.
Proof.
  intros H. destruct (existsb _ _) eqn:E; [|reflexivity].
  apply existsb_exists in E as (x & Hx & E). apply String.eqb_eq in E.
  subst x. contradiction.
Qed.

(** X10.  On a repository with HEAD on a branch and no remote named
    origin, fetch and check raise the [ValueError] of [repo.remote()]
    before they print anything; under [_try_run] this is one error line
    and a normal return.  The pull of such a repository, when clean, is
    skipped as not tracking if there is no remote at all, and raises the
    same error if there are remotes. *)
Theorem missing_origin_is_an_error (env : Env) (repo_dir : string) (repo : Repo)
    (branch : option string) (w : World) (active : string) :
  let s := w (working_dir repo) in
  let asked := [Call (working_dir repo) HeadIsDetached;
                Call (working_dir repo) GetRemote] in
  head s = OnBranch active -> ~ In "origin" (remotes s) ->
  _fetch_repo env repo_dir repo branch w = (Raise no_origin, w, asked) /\
  _check_is_repo_up_to_date env repo_dir repo branch w
    = (Raise no_origin, w, asked) /\
  _try_run env (_fetch_repo env repo_dir repo branch) w
    = (Ok tt, w, (asked ++ error_lines env (Raise no_origin))%list) /\
  _try_run env (_check_is_repo_up_to_date env repo_dir repo branch) w
    = (Ok tt, w, (asked ++ error_lines env (Raise no_origin))%list) /\
  (dirty s = false -> remotes s = [] ->
     pull_skipped env repo_dir NOT_TRACKING (_pull_repo env repo_dir repo w)) /\
  (dirty s = false -> remotes s <> [] ->
     value (_pull_repo env repo_dir repo w) = Raise no_origin /\
     printed (trace (_pull_repo env repo_dir repo w)) = []).
Proof.
  intros s asked Hh Ho; subst s asked. apply existsb_origin_false in Ho.
  assert (Ef : _fetch_repo env repo_dir repo branch w
               = (Raise no_origin, w,
                  [Call (working_dir repo) HeadIsDetached;
                   Call (working_dir repo) GetRemote])) by (run; reflexivity).
  assert (Ec : _check_is_repo_up_to_date env repo_dir repo branch w
               = (Raise no_origin, w,
                  [Call (working_dir repo) HeadIsDetached;
                   Call (working_dir repo) GetRemote])) by (run; reflexivity).
  split; [exact Ef|]. split; [exact Ec|]. split; [|split; [|split]].
  - rewrite try_run_catches; rewrite Ef; [reflexivity|].
    intros e E. injection E as <-. reflexivity.
  - rewrite try_run_catches; rewrite Ec; [reflexivity|].
    intros e E. injection E as <-. reflexivity.
  - intros Hd Hr. unfold pull_skipped, pull_skip_line. run.
    repeat split; try reflexivity; no_pull.
  - intros Hd Hr.
    destruct (remotes (w (working_dir repo))) as [|r rs] eqn:Hr'; [congruence|].
    run. split; reflexivity.
Qed.

Lemma upstream_is_not_origin : ~ In "origin" ["upstream"].
Proof. intros [H|[]]. discriminate H. Defined.

(** X10 on a checkout whose one remote is [upstream]. *)
Lemma missing_origin_is_an_error_witness :
  let w := one_repo (with_remotes clean_master ["upstream"]) in
  printed (trace (_try_run env0 (_fetch_repo env0 "/work/svc" svc None) w))
    = [error_line env0 "Message: Remote named 'origin' didn't exist"] /\
  value (_pull_repo env0 "/work/svc" svc w) = Raise no_origin.
Proof.
  intros w.
  destruct (missing_origin_is_an_error env0 "/work/svc" svc None w "master"
              eq_refl upstream_is_not_origin)
    as (_ & _ & Hfetch & _ & _ & Hpull).
  split.
  - rewrite Hfetch. reflexivity.
  - refine (proj1 (Hpull eq_refl _)). discriminate.
Defined.

Lemma update_other (w : World) (p q : string) (s : RepoState) :
  p <> q -> update w q s p = w p.
Proof. intros H. unfold update. apply String.eqb_neq in H. now rewrite H. Qed.

Ltac frame :=
  let p := fresh "p" in
  let H := fresh "H" in
  intros p H; first [reflexivity | apply update_other; exact H].

Ltac untouched :=
  let H := fresh "H" in
  simpl; intros H; first [reflexivity | discriminate H].

(** X5.  Fetch, pull and check leave every other repository as it was,
    and a run of theirs that issues no command leaves all repositories
    as they were. *)
Theorem operations_touch_only_their_repository (env : Env) (repo_dir : string)
    (repo : Repo) (branch : option string) (w : World) (op : M unit) :
  In op [_fetch_repo env repo_dir repo branch;
         _pull_repo env repo_dir repo;
         _check_is_repo_up_to_date env repo_dir repo branch] ->
  (forall p, p <> working_dir repo -> world_after (op w) p = w p) /\
  (commands (trace (op w)) = [] -> world_after (op w) = w).
Proof.
  intros [<-|[<-|[<-|[]]]]; split.
  - crush; frame.
  - unfold commands. crush; untouched.
  - crush; frame.
  - unfold commands. crush; untouched.
  - crush; frame.
  - unfold commands. crush; untouched.
Qed.

(** X5 on a pull in [/work/svc] next to [/work/web]. *)
Lemma operations_touch_only_their_repository_witness :
  world_after (_pull_repo env0 "/work/svc" svc two_repos) "/work/web"
  = two_repos "/work/web".
Proof.
  refine (proj1 (operations_touch_only_their_repository env0 "/work/svc" svc None
                   two_repos (_pull_repo env0 "/work/svc" svc)
                   (or_intror (or_introl eq_refl))) "/work/web" _).
  discriminate.
Defined.

Lemma collect_docker_paths_filter (host : Host) (dir_path : string)
    (sub_directories repo_paths : list string) :
  collect_docker_paths host dir_path sub_directories repo_paths
  = (repo_paths
     ++ map (path_join dir_path)
          (filter (has_compose_file host dir_path) sub_directories))%list.
Proof.
  revert repo_paths.
  induction sub_directories as [|sub_dir rest IH]; intros repo_paths;
    cbn [collect_docker_paths filter map].
  - now rewrite app_nil_r.
  - unfold has_compose_file at 1, _has_docker_compose_file.
    destruct (startswith sub_dir "."); cbn [negb andb]; [apply IH|].
    destruct (isfile host _); rewrite IH; [|reflexivity].
    cbn [map]. now rewrite <- app_assoc.
Qed.

Lemma collect_maven_paths_filter (host : Host) (dir_path : string)
    (sub_directories repo_paths : list string) :
  collect_maven_paths host dir_path sub_directories repo_paths
  = (repo_paths
     ++ map (path_join dir_path)
          (filter (has_pom host dir_path) sub_directories))%list.
Proof.
  revert repo_paths.
  induction sub_directories as [|sub_dir rest IH]; intros repo_paths;
    cbn [collect_maven_paths filter map].
  - now rewrite app_nil_r.
  - unfold has_pom at 1, _has_mvn_file.
    destruct (startswith sub_dir "."); cbn [negb andb]; [apply IH|].
    destruct (isfile host _); rewrite IH; [|reflexivity].
    cbn [map]. now rewrite <- app_assoc.
Qed.

(** *** Docker and maven *)

(** X14.  The docker and the maven discovery return, in the order of
    the listing, the paths of the immediate subdirectories whose name
    does not start with a dot and that hold a [docker-compose.yml],
    respectively a [pom.xml]; every path returned passes the test of
    its marker. *)
Theorem marker_discovery (fs : FileSystem) (host : Host) (dir_path : string) :
  _get_repo_paths_containing_dockers fs host dir_path
  = map (path_join dir_path)
      (filter (has_compose_file host dir_path) (walk_dirnames fs dir_path)) /\
  _get_repo_paths_containing_maven_project fs host dir_path
  = map (path_join dir_path)
      (filter (has_pom host dir_path) (walk_dirnames fs dir_path)) /\
  (forall p,
     In p (_get_repo_paths_containing_dockers fs host dir_path) ->
     _has_docker_compose_file host p = true) /\
  (forall p,
     In p (_get_repo_paths_containing_maven_project fs host dir_path) ->
     _has_mvn_file host p = true).
Proof.
  assert (Ed : _get_repo_paths_containing_dockers fs host dir_path
    = map (path_join dir_path)
        (filter (has_compose_file host dir_path) (walk_dirnames fs dir_path))).
  { unfold _get_repo_paths_containing_dockers.
    now rewrite collect_docker_paths_filter. }
  assert (Em : _get_repo_paths_containing_maven_project fs host dir_path
    = map (path_join dir_path)
        (filter (has_pom host dir_path) (walk_dirnames fs dir_path))).
  { unfold _get_repo_paths_containing_maven_project.
    now rewrite collect_maven_paths_filter. }
  split; [exact Ed|]. split; [exact Em|]. split; intros p Hp.
  - rewrite Ed in Hp. apply in_map_iff in Hp as (d & <- & Hd).
    apply filter_In in Hd as [_ Hd]. unfold has_compose_file in Hd.
    apply andb_true_iff in Hd as [_ Hd]. exact Hd.
  - rewrite Em in Hp. apply in_map_iff in Hp as (d & <- & Hd).
    apply filter_In in Hd as [_ Hd]. unfold has_pom in Hd.
    apply andb_true_iff in Hd as [_ Hd]. exact Hd.
Qed.

Lemma open_fails (path : string) (w : World) :
  is_repo (w path) = false ->
  Git.open path w = (Raise (not_a_repo path), w, [Call path OpenRepo]).
Proof. intros H. unfold Git.open, query. cbn [working_dir]. now rewrite H. Qed.

Lemma open_raises (path : string) (w : World) (e : exn) :
  value (Git.open path w) = Raise e ->
  Git.open path w = (Raise e, w, [Call path OpenRepo]).
Proof.
  unfold Git.open, query, value. cbn [working_dir fst].
  destruct (is_repo (w path)); [discriminate|]. intros E. now injection E as <-.
Qed.

Lemma execute_after_open (env : Env) (host : Host)
    (cmd title repo_dir : string) (w : World) (e : exn) :
  value (Git.open repo_dir w) = Raise e ->
  _execute_cmd_in_repo env host cmd title repo_dir None w
  = (Raise e, w, [Call repo_dir OpenRepo]).
Proof.
  intros H. unfold _execute_cmd_in_repo, repo_or_open. unfold bind at 1.
  now rewrite (open_raises _ _ _ H).
Qed.

(** X16.  When [Repo(repo_dir)] raises, because the directory does not
    open as a git repository, a maven action on it fails with that
    exception before the shell is called, whatever the shell would do:
    so for [_execute_cmd_in_repo] without a repository object, for the
    three maven actions, and for the [mvn] task with a target and any of
    run, install, build, which prints its notices, tries to open the
    target and ends there. *)
Theorem maven_needs_a_git_repository (env : Env) (fs : FileSystem) (host : Host)
    (w : World) (repo_dir : string) (e : exn) :
  value (Git.open repo_dir w) = Raise e ->
  let failure := (Raise e, w, [Call repo_dir OpenRepo]) in
  (forall cmd title,
     _execute_cmd_in_repo env host cmd title repo_dir None w = failure) /\
  (forall profile, _build_maven_project env host repo_dir profile w = failure) /\
  (forall profile, _install_maven_project env host repo_dir profile w = failure) /\
  (forall jvm_args profile,
     _start_spring_boot env host repo_dir jvm_args profile w = failure) /\
  (forall run install build repo profile name,
     truthy repo = Some name ->
     path_join (getcwd env) name = repo_dir ->
     run || install || build = true ->
     let o := mvn env fs host run install build false repo profile w in
     value o = Raise e /\
     world_after o = w /\
     calls (trace o) = [(repo_dir, OpenRepo)]).
Proof.
  intros H failure; subst failure. split; [|split; [|split; [|split]]].
  - intros. now apply execute_after_open.
  - intros. now apply execute_after_open.
  - intros. now apply execute_after_open.
  - intros. now apply execute_after_open.
  - intros run install build repo profile name Hrepo Hdir Hflags o; subst o.
    unfold mvn, or_empty. rewrite Hrepo, Hdir. cbn [is_not_None negb andb].
    destruct build, install, run; try discriminate; cbn [negb andb];
      unfold _build_maven_project, _install_maven_project, _start_spring_boot,
        bind, _print_info, _print_warn, print, ret;
      repeat rewrite (execute_after_open _ _ _ _ _ _ _ H);
      try (destruct (truthy profile));
      repeat rewrite (execute_after_open _ _ _ _ _ _ _ H);
      repeat split; reflexivity.
Qed.

(** X16 on a build of [/work/docs], a plain directory. *)
Lemma maven_needs_a_git_repository_witness :
  value (Git.open "/work/docs" two_repos) = Raise (not_a_repo "/work/docs") /\
  value (mvn env0 fs_two host_bare false false true false (Some "docs") None
           two_repos)
  = Raise (not_a_repo "/work/docs") /\
  _install_maven_project env0 host_bare "/work/docs" (Some "dev") two_repos
  = (Raise (not_a_repo "/work/docs"), two_repos, [Call "/work/docs" OpenRepo]).
Proof.
  destruct (maven_needs_a_git_repository env0 fs_two host_bare two_repos
              "/work/docs" (not_a_repo "/work/docs") eq_refl)
    as (_ & _ & Hinstall & _ & Hmvn).
  split; [reflexivity|]. split.
  - exact (proj1 (Hmvn false false true (Some "docs") None "docs"
                    eq_refl eq_refl eq_refl)).
  - exact (Hinstall (Some "dev")).
Defined.

(** X15.  [_execute_cmd_in_repo] on a repository object prints its
    header, runs the command, and reports the result: when the command
    ends, with a failure or without, the run returns normally, in the
    world the command left, after a warning for a failure or a notice
    for a success and an empty line; when [invoke.run] itself raises,
    the exception comes out and nothing is printed after the command. *)
Theorem shell_result_is_reported (env : Env) (host : Host)
    (cmd title repo_dir : string) (repo : Repo) (w : World) :
  let o := _execute_cmd_in_repo env host cmd title repo_dir (Some repo) w in
  let header :=
    Out (title ++ " in repo: " ++ repo_str_of env repo_dir (w (working_dir repo))
         ++ "..." ++ LF) in
  let asked := repo_str_queries repo (w (working_dir repo)) in
  let said := colored env repo_dir "blue" [] in
  (forall failed w' out,
     invoke_run host cmd w = (Ok failed, w', out) ->
     o = (Ok tt, w',
          (asked ++ header :: out
           ++ [Out (if failed
                    then warn_line env (title ++ " failed (repo: " ++ said ++ ")")
                    else info_line env (title ++ " completed (repo: " ++ said ++ ")"));
               Out EmptyString])%list)) /\
  (forall e w' out,
     invoke_run host cmd w = (Raise e, w', out) ->
     o = (Raise e, w', (asked ++ header :: out)%list)).
Proof.
  intros o header asked said; subst o header asked said.
  unfold _execute_cmd_in_repo, repo_or_open.
  split; intros x w' out H; unfold bind at 1; unfold ret at 1;
    unfold bind at 1; rewrite repo_str_run;
    unfold bind at 1; unfold print at 1; unfold bind at 1; rewrite H.
  - destruct x; unfold bind, _print_warn, _print_info, print, warn_line, info_line;
      cbn [app]; rewrite <- ?app_assoc; reflexivity.
  - cbn [app]. rewrite <- ?app_assoc. reflexivity.
Qed.

Lemma for_each_first_fails (env : Env) (func : string -> Repo -> M unit)
    (d : string) (rest : list string) (w : World) :
  is_repo (w d) = false ->
  _run_action_for_each_repo env (d :: rest) func w
  = (Raise (not_a_repo d), w, [Call d OpenRepo]).
Proof.
  intros H. cbn [_run_action_for_each_repo]. unfold bind at 1.
  now rewrite (open_fails _ _ H).
Qed.

(** X17.  When the first directory the docker discovery found does not
    open as a git repository, the [docker] task with any action ends in
    [InvalidGitRepositoryError] after its first notice and the attempt
    to open that directory: no command is run there or in the
    directories after it. *)
Theorem docker_stops_at_a_plain_directory (env : Env) (fs : FileSystem)
    (host : Host) (up down restart list_ : bool) (w : World)
    (d : string) (rest : list string) :
  _get_repo_paths_containing_dockers fs host (getcwd env) = d :: rest ->
  is_repo (w d) = false ->
  up || down || restart || list_ = true ->
  exists line,
    docker env fs host up down restart list_ w
    = (Raise (not_a_repo d), w, [Out line; Call d OpenRepo]).
Proof.
  intros Hfound Hd Hflags. unfold docker, docker_actions, list_docker_repos.
  rewrite Hfound. cbn [is_empty].
  destruct list_, down, up, restart; try discriminate; cbn [negb andb];
    eexists; unfold bind, _print_info, print, ret;
    rewrite ?(for_each_first_fails _ _ _ _ _ Hd); reflexivity.
Qed.

(** X17 on [/work], where the first directory with a compose file is
    the plain directory [/work/docs]. *)
Lemma docker_stops_at_a_plain_directory_witness :
  exists line,
    docker env0 fs_two host_docker true true false false two_repos
    = (Raise (not_a_repo "/work/docs"), two_repos,
       [Out line; Call "/work/docs" OpenRepo]).
Proof.
  exact (docker_stops_at_a_plain_directory env0 fs_two host_docker
           true true false false two_repos "/work/docs" ["/work/web"]
           eq_refl eq_refl eq_refl).
Defined.

(** X18.  With no compose file in any subdirectory nor in the working
    directory, the [docker] task prints one line, whatever the actions,
    and does nothing else. *)
Theorem docker_without_targets (env : Env) (fs : FileSystem) (host : Host)
    (up down restart list_ : bool) (w : World) :
  _get_repo_paths_containing_dockers fs host (getcwd env) = [] ->
  _has_docker_compose_file host (getcwd env) = false ->
  exists line, docker env fs host up down restart list_ w = (Ok tt, w, [Out line]).
Proof.
  intros Hfound Hcwd. unfold docker. rewrite Hfound, Hcwd. cbn [is_empty].
  destruct (negb up && negb down && negb restart && negb list_);
    eexists; reflexivity.
Qed.

(** X18 on a working directory without compose files. *)
Lemma docker_without_targets_witness :
  exists line,
    docker env0 fs_two host_bare true false false false two_repos
    = (Ok tt, two_repos, [Out line]).
Proof.
  exact (docker_without_targets env0 fs_two host_bare true false false false
           two_repos eq_refl eq_refl).
Defined.

(** X19.  [mvn] with run alone and no profile is [mvn] with run alone
    and the profile [local-dev], after the warning that the default is
    used. *)
Theorem mvn_run_defaults_the_profile (env : Env) (fs : FileSystem) (host : Host)
    (repo profile : option string) (name : string) (w : World) :
  truthy repo = Some name -> truthy profile = None ->
  mvn env fs host true false false false repo profile w
  = (_print_warn env ("No profile defined for maven task - using default "
                      ++ "'" ++ "local-dev" ++ "'") ;;
     mvn env fs host true false false false repo (Some "local-dev")) w.
Proof.
  intros Hrepo Hprofile. unfold mvn. rewrite Hrepo, Hprofile.
  cbn [is_not_None negb andb truthy String.eqb Ascii.eqb Bool.eqb].
  unfold DEFAULT_MVN_PROFILE, bind, ret, _print_warn, _print_info, print.
  cbn [app].
  destruct (_start_spring_boot env host _ _ _ w) as [[r w'] t]. reflexivity.
Qed.

(** X19 on the start of [/work/svc] without a profile. *)
Lemma mvn_run_defaults_the_profile_witness :
  mvn env0 fs_two host_bare true false false false (Some "svc") None two_repos
  = (_print_warn env0 ("No profile defined for maven task - using default "
                       ++ "'" ++ "local-dev" ++ "'") ;;
     mvn env0 fs_two host_bare true false false false (Some "svc")
       (Some "local-dev")) two_repos.
Proof.
  exact (mvn_run_defaults_the_profile env0 fs_two host_bare (Some "svc") None
           "svc" two_repos eq_refl eq_refl).
Defined.

Lemma emits_when allowed (b : bool) (m : M unit) :
  (b = true -> emits allowed m) -> emits allowed (if b then m else ret tt).
Proof. destruct b; intros H; [now apply H|apply emits_ret]. Qed.

Lemma emits_weaken {A} (allowed allowed' : GitCall -> bool) (m : M A) :
  (forall c, allowed c = true -> allowed' c = true) ->
  emits allowed m -> emits allowed' m.
Proof. intros H Hm w. exact (only_commands_weaken _ _ _ H (Hm w)). Qed.

(** X4.  A command the [git] task issues is of an action that was
    asked for: a fetch from origin only with the fetch flag, a pull
    only with the pull flag, an update of the remote only with the
    update flag. *)
Theorem git_runs_only_what_is_asked (env : Env) (fs : FileSystem)
    (list_ fetch pull update_ : bool) (branch : option string) (w : World)
    (p : string) (c : GitCall) :
  In (p, c) (commands (trace (git env fs list_ fetch pull update_ branch w))) ->
  (fetch = true /\ exists b, c = GitFetch "origin" b) \/
  (pull = true /\ c = GitPull) \/
  (update_ = true /\ c = RemoteUpdate).
Proof.
  intros H.
  assert (E : emits (requested fetch pull update_)
                (git env fs list_ fetch pull update_ branch)).
  { unfold git. destruct (negb list_ && negb fetch && negb pull && negb update_);
      [apply emits_print|].
    apply emits_bind; [|intros _; apply emits_bind; [|intros _; apply emits_bind]].
    - destruct list_; [|apply emits_ret].
      apply emits_bind; [apply emits_print|]. intros _.
      apply emits_bind; [destruct (is_not_None branch);
                         [apply emits_print|apply emits_ret]|].
      intros _. apply (emits_weaken no_command); [discriminate|].
      apply emits_list_repos.
    - destruct fetch; [|apply emits_ret].
      apply emits_bind; [apply emits_print|]. intros _.
      apply (emits_weaken is_fetch_from_origin); [|apply emits_fetch_all].
      intros c' Hc. unfold requested. now rewrite Hc.
    - destruct pull; [|apply emits_ret].
      apply emits_bind; [apply emits_print|]. intros _.
      apply emits_bind; [destruct (is_not_None branch);
                         [apply emits_print|apply emits_ret]|].
      intros _. apply (emits_weaken is_pull); [|apply emits_pull_all].
      intros c' Hc. unfold requested. rewrite Hc. cbn [andb].
      now rewrite orb_true_r.
    - intros _. destruct update_; [|apply emits_ret].
      apply emits_bind; [apply emits_print|]. intros _.
      apply (emits_weaken is_remote_update); [|apply emits_check_repo_states].
      intros c' Hc. unfold requested. rewrite Hc. cbn [andb].
      now rewrite orb_true_r. }
  apply (only_commands_In _ _ (E w)) in H. unfold requested in H.
  apply orb_true_iff in H as [H|H]; [apply orb_true_iff in H as [H|H]|];
    apply andb_true_iff in H as [Hf Hc]; destruct c; try discriminate.
  - left. split; [exact Hf|]. apply String.eqb_eq in Hc. subst. now eexists.
  - right. left. now split.
  - right. right. now split.
Qed.

(** X4 on a pull of the two repositories of [/work]. *)
Lemma git_runs_only_what_is_asked_witness :
  In ("/work/svc", GitPull)
     (commands (trace (git env0 fs_two false false true false None two_repos))) /\
  ((false = true /\ exists b, GitPull = GitFetch "origin" b) \/
   (true = true /\ GitPull = GitPull) \/
   (false = true /\ GitPull = RemoteUpdate)).
Proof.
  assert (H : In ("/work/svc", GitPull)
     (commands (trace (git env0 fs_two false false true false None two_repos)))).
  { vm_compute. tauto. }
  split; [exact H|].
  exact (git_runs_only_what_is_asked env0 fs_two false false true false None
           two_repos "/work/svc" GitPull H).
Defined.
